(** * habitat-sim: Simulator orchestration, Sensor and depth unprojection

    A shallow embedding of
    - [esp/gfx/DepthUnprojection.cpp] ([calculateDepthUnprojection],
      [unprojectDepth]),
    - [esp/sensor/Sensor.h] ([Sensor::framebufferSize],
      [Sensor::bindRenderTarget], [Sensor::renderTarget]),
    - [esp/gfx/Simulator.cpp] ([Simulator::reconfigure], [Simulator::reset],
      [operator==] on [SimulatorConfiguration] and the object-addressing
      methods),
    together with the properties the specification states about them.

    C++ [float] is IEEE-754 binary32, modelled by the Standard Library's
    [spec_float] at precision 24 and maximal exponent 128; C++ [int] values
    are carried as [Z]; [std::map<std::string, std::string>] is a
    [gmap string string]; exceptions are an explicit result type. *)

From Stdlib Require Import ZArith Bool List Lia Ascii String.
From Stdlib Require Import Floats.SpecFloat.
From stdpp Require Import base option list strings gmap.

Local Open Scope Z_scope.

(** ** C++ [float] *)

Module Float32.

Definition prec : Z := 24.
Definition emax : Z := 128.

Definition float : Type := spec_float.

Definition add : float -> float -> float := SFadd prec emax.
Definition sub : float -> float -> float := SFsub prec emax.
Definition mul : float -> float -> float := SFmul prec emax.
Definition div : float -> float -> float := SFdiv prec emax.
(** [a == b] on floats: false as soon as one side is a NaN. *)
Definition eqb : float -> float -> bool := SFeqb.

(** The literal [m * 2^e], rounded to binary32. *)
Definition lit (m e : Z) : float := binary_normalize prec emax m e false.

Definition zero : float := S754_zero false.
Definition one : float := lit 1 0.
Definition half : float := lit 1 (-1).

End Float32.

Abbreviation f32 := Float32.float.

(** ** The Magnum math types the code uses *)

Module Magnum.

Record Vector2 := mkVector2 { v2_0 : f32; v2_1 : f32 }.
Record Vector3 := mkVector3 { v3_x : f32; v3_y : f32; v3_z : f32 }.
Record Vector4 := mkVector4 { v4_0 : f32; v4_1 : f32; v4_2 : f32; v4_3 : f32 }.

(** Column-major: [m[c]] is column [c], [m[c][r]] its row [r]. *)
Record Matrix4 := mkMatrix4 { col0 : Vector4; col1 : Vector4; col2 : Vector4; col3 : Vector4 }.

Record Quaternion := mkQuaternion { q_vector : Vector3; q_scalar : f32 }.

Record Vector2i := mkVector2i { v2i_x : Z; v2i_y : Z }.

(** [Vector2::operator[]]. *)
Definition Vector2_at (v : Vector2) (i : nat) : f32 :=
  match i with O => v2_0 v | _ => v2_1 v end.

Definition Vector4_at (v : Vector4) (i : nat) : f32 :=
  match i with
  | 0%nat => v4_0 v | 1%nat => v4_1 v | 2%nat => v4_2 v | _ => v4_3 v
  end.

(** [Matrix4::operator[]]: the column. *)
Definition Matrix4_col (m : Matrix4) (c : nat) : Vector4 :=
  match c with
  | 0%nat => col0 m | 1%nat => col1 m | 2%nat => col2 m | _ => col3 m
  end.

Definition Matrix4_at (m : Matrix4) (c r : nat) : f32 :=
  Vector4_at (Matrix4_col m c) r.

(** [Vector2 * Float]: every component times the scalar. *)
Definition Vector2_scale (v : Vector2) (k : f32) : Vector2 :=
  mkVector2 (Float32.mul (v2_0 v) k) (Float32.mul (v2_1 v) k).

(** [Vector4(value)]: every component set to [value]. *)
Definition Vector4_fill (x : f32) : Vector4 := mkVector4 x x x x.

(** [Matrix4::fromDiagonal]. *)
Definition Matrix4_fromDiagonal (d : Vector4) : Matrix4 :=
  let z := Float32.zero in
  mkMatrix4 (mkVector4 (v4_0 d) z z z) (mkVector4 z (v4_1 d) z z)
            (mkVector4 z z (v4_2 d) z) (mkVector4 z z z (v4_3 d)).

(** The identity transform: 1 on the diagonal, 0 elsewhere. *)
Definition Matrix4_identity : Matrix4 :=
  let o := Float32.one in
  let z := Float32.zero in
  mkMatrix4 (mkVector4 o z z z) (mkVector4 z o z z)
            (mkVector4 z z o z) (mkVector4 z z z o).

(** [Vector3()]: zero-initialised. *)
Definition Vector3_default : Vector3 :=
  mkVector3 Float32.zero Float32.zero Float32.zero.

(** [Quaternion()]: the identity rotation, zero vector part and scalar 1. *)
Definition Quaternion_default : Quaternion :=
  mkQuaternion Vector3_default Float32.one.

(** [Vector2i::operator!=]: exact, component by component. *)
Definition Vector2i_neqb (a b : Vector2i) : bool :=
  negb ((v2i_x a =? v2i_x b) && (v2i_y a =? v2i_y b)).

End Magnum.

(** ** esp/gfx/DepthUnprojection.cpp *)

Module DepthUnprojection.
Import Magnum.

Definition calculateDepthUnprojection (projectionMatrix : Matrix4) : Vector2 :=
  Vector2_scale
    (mkVector2 (Float32.sub (Matrix4_at projectionMatrix 2 2) Float32.one)
               (Matrix4_at projectionMatrix 3 2))
    Float32.half.

(** One iteration of the loop body at index [i]; [None] past the end. *)
Definition unprojectDepth_body (unprojection : Vector2) (i : nat)
    (depth : list f32) : option (list f32) :=
  match depth !! i with
  | None => None
  | Some d =>
      if Float32.eqb d Float32.one
      then Some (<[i := Float32.zero]> depth)
      else Some (<[i := Float32.div (Vector2_at unprojection 1)
                                    (Float32.add d (Vector2_at unprojection 0))]> depth)
  end.

(** [for (i = ...; i != depth.size(); ++i)] with [n] iterations left. *)
Fixpoint unprojectDepth_loop (unprojection : Vector2) (n i : nat)
    (depth : list f32) : list f32 :=
  match n with
  | O => depth
  | S n' =>
      match unprojectDepth_body unprojection i depth with
      | Some depth' => unprojectDepth_loop unprojection n' (S i) depth'
      | None => depth
      end
  end.

Definition unprojectDepth (unprojection : Vector2) (depth : list f32) : list f32 :=
  unprojectDepth_loop unprojection (length depth) 0 depth.

(** The conversion of one raw depth value, as the specification words it. *)
Definition linearDepth (a b d : f32) : f32 :=
  if Float32.eqb d Float32.one then Float32.zero
  else Float32.div b (Float32.add d a).

End DepthUnprojection.

(** ** C++ exceptions and stateful methods *)

Module Cpp.

Inductive exception :=
| invalid_argument (what : string)
| runtime_error (what : string).

(** The outcome of a method call on an object of state [S]: it returns a
    value or throws, and in both cases leaves the object in some state. *)
Inductive Result (S A : Type) :=
| Returns (a : A) (s : S)
| Throws (e : exception) (s : S).
Arguments Returns {S A} a s.
Arguments Throws {S A} e s.

Definition M (S A : Type) : Type := S -> Result S A.

Definition ret {S A} (a : A) : M S A := fun s => Returns a s.

Definition bind {S A B} (m : M S A) (k : A -> M S B) : M S B :=
  fun s =>
    match m s with
    | Returns a s' => k a s'
    | Throws e s' => Throws e s'
    end.

Definition throw {S A} (e : exception) : M S A := fun s => Throws e s.
Definition get {S} : M S S := fun s => Returns s s.
Definition modify {S} (f : S -> S) : M S unit := fun s => Returns tt (f s).

(** [if (c) { m }] *)
Definition when {S} (c : bool) (m : M S unit) : M S unit :=
  if c then m else ret tt.

Definition state_of {S A} (r : Result S A) : S :=
  match r with Returns _ s => s | Throws _ s => s end.

Definition returned {S A} (r : Result S A) : bool :=
  match r with Returns _ _ => true | Throws _ _ => false end.

Declare Scope cpp_scope.
Delimit Scope cpp_scope with cpp.
Notation "'let*' x ':=' m 'in' k" := (bind m (fun x => k))
  (at level 10, x name, m at level 100, k at level 200) : cpp_scope.
Notation "m1 ;; m2" := (bind m1 (fun _ => m2))
  (at level 100, m2 at level 200, right associativity) : cpp_scope.

End Cpp.

(** ** esp/sensor/Sensor.h *)

Module Sensor.
Import Magnum Cpp.

Inductive SensorType :=
| NONE | COLOR | DEPTH | NORMAL | SEMANTIC | PATH | GOAL | FORCE | TENSOR | TEXT.

(** [vec2i]: two [int]s, indexed 0 and 1. *)
Record vec2i := mkvec2i { vec2i_0 : Z; vec2i_1 : Z }.

Definition vec2i_at (v : vec2i) (i : nat) : Z :=
  match i with O => vec2i_0 v | _ => vec2i_1 v end.

Definition vec3f : Type := f32 * f32 * f32.

Record SensorSpec := mkSensorSpec {
  uuid : string;
  sensorType : SensorType;
  sensorSubtype : string;
  parameters : gmap string string;
  position : vec3f;
  orientation : vec3f;
  resolution : vec2i;
  channels : Z;
  encoding : string;
  observationSpace : string;
  gpu2gpuTransfer : bool
}.

(** The part of [gfx::RenderTarget] (declared in esp/gfx/RenderTarget.h,
    not among the sources) that [Sensor] reads: its framebuffer size. *)
Record RenderTarget := mkRenderTarget { rt_framebufferSize : Vector2i }.

Record Sensor := mkSensor {
  spec_ : SensorSpec;
  tgt_ : option RenderTarget
}.

Definition framebufferSize (this : Sensor) : Vector2i :=
  mkVector2i (vec2i_at (resolution (spec_ this)) 1)
             (vec2i_at (resolution (spec_ this)) 0).

Definition hasRenderTarget (this : Sensor) : bool :=
  match tgt_ this with Some _ => true | None => false end.

Definition bindRenderTarget (tgt : RenderTarget) : M Sensor unit :=
  fun this =>
    if Vector2i_neqb (rt_framebufferSize tgt) (framebufferSize this)
    then Throws (runtime_error "RenderTarget is not the correct size") this
    else Returns tt (mkSensor (spec_ this) (Some tgt)).

Definition renderTarget : M Sensor RenderTarget :=
  fun this =>
    match tgt_ this with
    | None => Throws (runtime_error "Sensor has no rendering target") this
    | Some tgt => Returns tgt this
    end.

End Sensor.

(** ** esp/gfx/Simulator.cpp *)

Module Simulator.
Import Magnum Cpp.
Local Open Scope cpp_scope.

(** *** Configuration *)

Definition vec3f : Type := f32 * f32 * f32.

(** [scene::SceneConfiguration], with the fields the bindings expose. *)
Record SceneConfiguration := mkSceneConfiguration {
  dataset : string;
  id : string;
  filepaths : gmap string string;
  sceneUpDir : vec3f;
  sceneFrontDir : vec3f;
  sceneScaleUnit : f32
}.

Record SimulatorConfiguration := mkSimulatorConfiguration {
  scene : SceneConfiguration;
  defaultAgentId : Z;
  defaultCameraUuid : string;
  gpuDeviceId : Z;
  width : Z;
  height : Z;
  compressTextures : bool;
  createRenderer : bool;
  enablePhysics : bool;
  physicsConfigFile : string
}.

(** Modelled from the spec: the [assets::AssetType] enumeration is declared
    in esp/assets/Asset.h, which is not among the sources.  The three
    embedded-semantics tags are the ones [Simulator::reconfigure] names;
    every other tag carries no embedded semantics and is [OTHER_ASSET]. *)
Inductive AssetType :=
| FRL_INSTANCE_MESH | SUNCG_SCENE | INSTANCE_MESH | OTHER_ASSET.

Record AssetInfo := mkAssetInfo { type : AssetType; filepath : string }.

Definition AssetType_eqb (a b : AssetType) : bool :=
  match a, b with
  | FRL_INSTANCE_MESH, FRL_INSTANCE_MESH | SUNCG_SCENE, SUNCG_SCENE
  | INSTANCE_MESH, INSTANCE_MESH | OTHER_ASSET, OTHER_ASSET => true
  | _, _ => false
  end.

(** *** The physics world *)

(** The methods of [physics::PhysicsManager] that [Simulator] calls, as
    transitions of the world's state [PW]. *)
Class PhysicsManager (PW : Type) := {
  pm_reset : PW -> PW;
  pm_addObject : Z -> Z -> PW -> Z * PW;
  pm_getExistingObjectIDs : PW -> list Z * PW;
  pm_removeObject : Z -> PW -> PW;
  pm_applyTorque : Z -> Vector3 -> PW -> PW;
  pm_applyForce : Z -> Vector3 -> Vector3 -> PW -> PW;
  pm_setTransformation : Z -> Matrix4 -> PW -> PW;
  pm_getTransformation : Z -> PW -> Matrix4 * PW;
  pm_setTranslation : Z -> Vector3 -> PW -> PW;
  pm_getTranslation : Z -> PW -> Vector3 * PW;
  pm_setRotation : Z -> Quaternion -> PW -> PW;
  pm_getRotation : Z -> PW -> Quaternion * PW
}.

(** *** Calls made to the collaborators, in program order *)

Inductive PhysicsCall :=
| reset_call
| addObject_call (objectLibIndex drawablesOfScene : Z)
| getExistingObjectIDs_call
| removeObject_call (objectID : Z)
| applyTorque_call (objectID : Z) (tau : Vector3)
| applyForce_call (objectID : Z) (force relPos : Vector3)
| setTransformation_call (objectID : Z) (transform : Matrix4)
| getTransformation_call (objectID : Z)
| setTranslation_call (objectID : Z) (translation : Vector3)
| getTranslation_call (objectID : Z)
| setRotation_call (objectID : Z) (rotation : Quaternion)
| getRotation_call (objectID : Z).

Inductive Call :=
| initSceneGraph_call (sceneID : Z)
| WindowlessContext_call (gpuDevice : Z)
| Renderer_create_call (w h : Z)
| compressTextures_call (flag : bool)
| loadScene_call (info : AssetInfo) (withPhysics : bool) (sceneID : Z)
                 (loadSuccess : bool)
| SemanticScene_create_call
| loadMp3dHouse_call (houseFilename : string)
| loadSuncgHouse_call (sceneFilename : string)
| physics_call (c : PhysicsCall).

(** What a [scene::SemanticScene] was populated from, oldest first. *)
Inductive HouseSource :=
| Mp3dHouse (houseFilename : string)
| SuncgHouse (sceneFilename : string).

(** *** The collaborators whose code is outside Simulator.cpp *)

Record Collaborators (PW : Type) := mkCollaborators {
  (** [ID_UNDEFINED] of esp/core/esp.h. *)
  ID_UNDEFINED : Z;
  (** [operator==] on [SceneConfiguration]. *)
  SceneConfiguration_eqb : SceneConfiguration -> SceneConfiguration -> bool;
  (** [io::changeExtension], [io::removeExtension], [io::exists]. *)
  changeExtension : string -> string -> string;
  removeExtension : string -> string;
  exists_ : string -> bool;
  (** [assets::AssetInfo::fromPath]. *)
  fromPath : string -> AssetInfo;
  (** [ResourceManager::loadScene(info, parent, drawables)], the graph
      being named by its id: the success flag. *)
  loadScene : AssetInfo -> Z -> bool;
  (** [ResourceManager::loadScene(info, physicsManager, parent, drawables,
      physicsFilename)]: the success flag and the physics manager the
      reference argument holds afterwards. *)
  loadScene_physics : AssetInfo -> option PW -> Z -> string -> bool * option PW
}.
Arguments ID_UNDEFINED {PW} _.
Arguments SceneConfiguration_eqb {PW} _ _ _.
Arguments changeExtension {PW} _ _ _.
Arguments removeExtension {PW} _ _.
Arguments exists_ {PW} _ _.
Arguments fromPath {PW} _ _.
Arguments loadScene {PW} _ _ _.
Arguments loadScene_physics {PW} _ _ _ _ _.

(** *** The simulator object *)

Record Simulator (PW : Type) := mkSimulator {
  config_ : SimulatorConfiguration;
  (** [sceneManager_]: modelled from the spec (SceneManager is not among
      the sources) as the number of graphs created so far; ids are handed
      out monotonically and never reused. *)
  sceneManager_ : nat;
  sceneID_ : list Z;
  activeSceneID_ : Z;
  activeSemanticSceneID_ : Z;
  (** the windowless context, with the GPU device it was created for *)
  context_ : option Z;
  (** the renderer, with the width and height it was created with *)
  renderer_ : option (Z * Z);
  physicsManager_ : option PW;
  semanticScene_ : option (list HouseSource);
  (** every call made to a collaborator so far, oldest first *)
  calls_ : list Call
}.
Arguments mkSimulator {PW}.
Arguments config_ {PW} _.
Arguments sceneManager_ {PW} _.
Arguments sceneID_ {PW} _.
Arguments activeSceneID_ {PW} _.
Arguments activeSemanticSceneID_ {PW} _.
Arguments context_ {PW} _.
Arguments renderer_ {PW} _.
Arguments physicsManager_ {PW} _.
Arguments semanticScene_ {PW} _.
Arguments calls_ {PW} _.

(** *** Field assignments *)

Section Assignments.
Context {PW : Type}.
Implicit Type this : Simulator PW.

Definition set_config_ (x : SimulatorConfiguration) this :=
  let 'mkSimulator _ graphs ids active semantic ctx rnd pm sem log := this in
  mkSimulator x graphs ids active semantic ctx rnd pm sem log.

Definition set_sceneManager_ (x : nat) this :=
  let 'mkSimulator cfg0 _ ids active semantic ctx rnd pm sem log := this in
  mkSimulator cfg0 x ids active semantic ctx rnd pm sem log.

Definition set_sceneID_ (x : list Z) this :=
  let 'mkSimulator cfg0 graphs _ active semantic ctx rnd pm sem log := this in
  mkSimulator cfg0 graphs x active semantic ctx rnd pm sem log.

Definition set_activeSceneID_ (x : Z) this :=
  let 'mkSimulator cfg0 graphs ids _ semantic ctx rnd pm sem log := this in
  mkSimulator cfg0 graphs ids x semantic ctx rnd pm sem log.

Definition set_activeSemanticSceneID_ (x : Z) this :=
  let 'mkSimulator cfg0 graphs ids active _ ctx rnd pm sem log := this in
  mkSimulator cfg0 graphs ids active x ctx rnd pm sem log.

Definition set_context_ (x : option Z) this :=
  let 'mkSimulator cfg0 graphs ids active semantic _ rnd pm sem log := this in
  mkSimulator cfg0 graphs ids active semantic x rnd pm sem log.

Definition set_renderer_ (x : option (Z * Z)) this :=
  let 'mkSimulator cfg0 graphs ids active semantic ctx _ pm sem log := this in
  mkSimulator cfg0 graphs ids active semantic ctx x pm sem log.

Definition set_physicsManager_ (x : option PW) this :=
  let 'mkSimulator cfg0 graphs ids active semantic ctx rnd _ sem log := this in
  mkSimulator cfg0 graphs ids active semantic ctx rnd x sem log.

Definition set_semanticScene_ (x : option (list HouseSource)) this :=
  let 'mkSimulator cfg0 graphs ids active semantic ctx rnd pm _ log := this in
  mkSimulator cfg0 graphs ids active semantic ctx rnd pm x log.

Definition set_calls_ (x : list Call) this :=
  let 'mkSimulator cfg0 graphs ids active semantic ctx rnd pm sem _ := this in
  mkSimulator cfg0 graphs ids active semantic ctx rnd pm sem x.

(** Record one more call to a collaborator. *)
Definition called (c : Call) this := set_calls_ (calls_ this ++ [c]) this.

(** The calls made between an earlier state and a later one. *)
Definition calls_since (before after : Simulator PW) : list Call :=
  drop (length (calls_ before)) (calls_ after).

End Assignments.

(** *** Methods *)

Section Methods.
Context {PW : Type} `{PhysicsManager PW} (env : Collaborators PW).

(** [operator==(const SimulatorConfiguration&, const SimulatorConfiguration&)] *)
Definition SimulatorConfiguration_eqb (a b : SimulatorConfiguration) : bool :=
  SceneConfiguration_eqb env (scene a) (scene b) &&
  (defaultAgentId a =? defaultAgentId b) &&
  String.eqb (defaultCameraUuid a) (defaultCameraUuid b) &&
  Bool.eqb (compressTextures a) (compressTextures b) &&
  Bool.eqb (createRenderer a) (createRenderer b) &&
  Bool.eqb (enablePhysics a) (enablePhysics b) &&
  match String.compare (physicsConfigFile a) (physicsConfigFile b) with
  | Eq => true
  | _ => false
  end.

(** [operator!=] *)
Definition SimulatorConfiguration_neqb (a b : SimulatorConfiguration) : bool :=
  negb (SimulatorConfiguration_eqb a b).

(** [sceneManager_.initSceneGraph()]: the id of the graph it creates. *)
Definition initSceneGraph : M (Simulator PW) Z :=
  fun this =>
    let newID := Z.of_nat (sceneManager_ this) in
    Returns newID
      (called (initSceneGraph_call newID)
         (set_sceneManager_ (S (sceneManager_ this)) this)).

(** [resourceManager_.loadScene(info, &rootNode, &drawables)] on the
    graph [sceneID]. *)
Definition resourceManager_loadScene (info : AssetInfo) (sceneID : Z)
    : M (Simulator PW) bool :=
  fun this =>
    let loadSuccess := loadScene env info sceneID in
    Returns loadSuccess (called (loadScene_call info false sceneID loadSuccess) this).

(** [resourceManager_.loadScene(info, physicsManager_, &rootNode,
    &drawables, physicsFilename)]. *)
Definition resourceManager_loadScene_physics (info : AssetInfo) (sceneID : Z)
    (physicsFilename : string) : M (Simulator PW) bool :=
  fun this =>
    let '(loadSuccess, pm) :=
      loadScene_physics env info (physicsManager_ this) sceneID physicsFilename in
    Returns loadSuccess
      (called (loadScene_call info true sceneID loadSuccess)
         (set_physicsManager_ pm this)).

(** [scene::SemanticScene::loadMp3dHouse(houseFilename, *semanticScene_)] *)
Definition loadMp3dHouse (houseFilename : string) : M (Simulator PW) unit :=
  modify (fun this =>
    called (loadMp3dHouse_call houseFilename)
      (set_semanticScene_
         ((fun l => l ++ [Mp3dHouse houseFilename]) <$> semanticScene_ this) this)).

(** [scene::SemanticScene::loadSuncgHouse(sceneFilename, *semanticScene_)] *)
Definition loadSuncgHouse (sceneFilename : string) : M (Simulator PW) unit :=
  modify (fun this =>
    called (loadSuncgHouse_call sceneFilename)
      (set_semanticScene_
         ((fun l => l ++ [SuncgHouse sceneFilename]) <$> semanticScene_ this) this)).

Definition reset : M (Simulator PW) unit :=
  fun this =>
    match physicsManager_ this with
    | Some pm =>
        Returns tt (called (physics_call reset_call)
                      (set_physicsManager_ (Some (pm_reset pm)) this))
    | None => Returns tt this
    end.

(** The test [sceneInfo.type == FRL_INSTANCE_MESH || sceneInfo.type ==
    SUNCG_SCENE || sceneInfo.type == INSTANCE_MESH]. *)
Definition containsSemantics (sceneInfo : AssetInfo) : bool :=
  AssetType_eqb (type sceneInfo) FRL_INSTANCE_MESH ||
  AssetType_eqb (type sceneInfo) SUNCG_SCENE ||
  AssetType_eqb (type sceneInfo) INSTANCE_MESH.

(** [sceneFilename] of [reconfigure]. *)
Definition sceneFilename_of (cfg : SimulatorConfiguration) : string :=
  match filepaths (scene cfg) !! "mesh"%string with
  | Some mesh => mesh
  | None => id (scene cfg)
  end.

(** [houseFilename] of [reconfigure]. *)
Definition houseFilename_of (cfg : SimulatorConfiguration) : string :=
  match filepaths (scene cfg) !! "house"%string with
  | Some house => house
  | None => changeExtension env (sceneFilename_of cfg) ".house"
  end.

Definition reconfigure (cfg : SimulatorConfiguration) : M (Simulator PW) unit :=
  let* this := get in
  if SimulatorConfiguration_eqb cfg (config_ this) then reset
  else
    modify (set_config_ cfg);;
    let height := height cfg in
    let width := width cfg in
    let sceneFilename := sceneFilename_of cfg in
    let houseFilename := houseFilename_of cfg in
    let sceneInfo := fromPath env sceneFilename in
    let* newID := initSceneGraph in
    modify (set_activeSceneID_ newID);;
    modify (fun this => set_sceneID_ (sceneID_ this ++ [activeSceneID_ this]) this);;
    when (createRenderer cfg)
      (let* this := get in
       when (negb (bool_decide (is_Some (context_ this))))
         (modify (fun this =>
            called (WindowlessContext_call (gpuDeviceId (config_ this)))
              (set_context_ (Some (gpuDeviceId (config_ this))) this)));;
       modify (set_renderer_ None);;
       modify (fun this =>
         called (Renderer_create_call width height)
           (set_renderer_ (Some (width, height)) this));;
       modify (called (compressTextures_call (compressTextures cfg)));;
       let* this := get in
       let* loadSuccess :=
         (if enablePhysics (config_ this)
          then resourceManager_loadScene_physics sceneInfo (activeSceneID_ this)
                 (physicsConfigFile cfg)
          else resourceManager_loadScene sceneInfo (activeSceneID_ this)) in
       when (negb loadSuccess)
         (throw (invalid_argument ("Cannot load: " +:+ sceneFilename)));;
       when (exists_ env houseFilename)
         (let semanticMeshFilename :=
            removeExtension env houseFilename +:+ "_semantic.ply" in
          when (exists_ env semanticMeshFilename)
            (let* semanticID := initSceneGraph in
             modify (set_activeSemanticSceneID_ semanticID);;
             modify (fun this =>
               set_sceneID_ (sceneID_ this ++ [activeSemanticSceneID_ this]) this);;
             let semanticSceneInfo := fromPath env semanticMeshFilename in
             let* this := get in
             resourceManager_loadScene semanticSceneInfo
               (activeSemanticSceneID_ this);;
             ret tt));;
       when (containsSemantics sceneInfo)
         (modify (fun this => set_activeSemanticSceneID_ (activeSceneID_ this) this)));;
    modify (set_semanticScene_ None);;
    modify (fun this =>
      called SemanticScene_create_call (set_semanticScene_ (Some []) this));;
    when (exists_ env houseFilename) (loadMp3dHouse houseFilename);;
    when (AssetType_eqb (type sceneInfo) SUNCG_SCENE) (loadSuncgHouse sceneFilename);;
    reset.

(** *** Physics simulator functions *)

(** The test [physicsManager_ != nullptr && sceneID >= 0 &&
    sceneID < sceneID_.size()], giving the manager when it passes.  The
    [int] is compared with the [size_t] only once it is known to be
    non-negative, so the comparison is the one on integers. *)
Definition physicsFor (sceneID : Z) (this : Simulator PW) : option PW :=
  match physicsManager_ this with
  | Some pm =>
      if (0 <=? sceneID) && (sceneID <? Z.of_nat (length (sceneID_ this)))
      then Some pm else None
  | None => None
  end.

(** The state after [physicsManager_->c(...)] left the world as [pm]. *)
Definition forwarded (c : PhysicsCall) (pm : PW) (this : Simulator PW) :=
  called (physics_call c) (set_physicsManager_ (Some pm) this).

Definition addObject (objectLibIndex sceneID : Z) : M (Simulator PW) Z :=
  fun this =>
    match physicsFor sceneID this with
    | Some pm =>
        let '(objectID, pm') := pm_addObject objectLibIndex sceneID pm in
        Returns objectID (forwarded (addObject_call objectLibIndex sceneID) pm' this)
    | None => Returns (ID_UNDEFINED env) this
    end.

Definition getExistingObjectIDs (sceneID : Z) : M (Simulator PW) (list Z) :=
  fun this =>
    match physicsFor sceneID this with
    | Some pm =>
        let '(ids, pm') := pm_getExistingObjectIDs pm in
        Returns ids (forwarded getExistingObjectIDs_call pm' this)
    | None => Returns [] this
    end.

Definition removeObject (objectID sceneID : Z) : M (Simulator PW) unit :=
  fun this =>
    match physicsFor sceneID this with
    | Some pm =>
        Returns tt (forwarded (removeObject_call objectID)
                      (pm_removeObject objectID pm) this)
    | None => Returns tt this
    end.

Definition applyTorque (tau : Vector3) (objectID sceneID : Z)
    : M (Simulator PW) unit :=
  fun this =>
    match physicsFor sceneID this with
    | Some pm =>
        Returns tt (forwarded (applyTorque_call objectID tau)
                      (pm_applyTorque objectID tau pm) this)
    | None => Returns tt this
    end.

Definition applyForce (force relPos : Vector3) (objectID sceneID : Z)
    : M (Simulator PW) unit :=
  fun this =>
    match physicsFor sceneID this with
    | Some pm =>
        Returns tt (forwarded (applyForce_call objectID force relPos)
                      (pm_applyForce objectID force relPos pm) this)
    | None => Returns tt this
    end.

Definition setTransformation (transform : Matrix4) (objectID sceneID : Z)
    : M (Simulator PW) unit :=
  fun this =>
    match physicsFor sceneID this with
    | Some pm =>
        Returns tt (forwarded (setTransformation_call objectID transform)
                      (pm_setTransformation objectID transform pm) this)
    | None => Returns tt this
    end.

Definition getTransformation (objectID sceneID : Z) : M (Simulator PW) Matrix4 :=
  fun this =>
    match physicsFor sceneID this with
    | Some pm =>
        let '(transform, pm') := pm_getTransformation objectID pm in
        Returns transform (forwarded (getTransformation_call objectID) pm' this)
    | None => Returns (Matrix4_fromDiagonal (Vector4_fill Float32.one)) this
    end.

Definition setTranslation (translation : Vector3) (objectID sceneID : Z)
    : M (Simulator PW) unit :=
  fun this =>
    match physicsFor sceneID this with
    | Some pm =>
        Returns tt (forwarded (setTranslation_call objectID translation)
                      (pm_setTranslation objectID translation pm) this)
    | None => Returns tt this
    end.

Definition getTranslation (objectID sceneID : Z) : M (Simulator PW) Vector3 :=
  fun this =>
    match physicsFor sceneID this with
    | Some pm =>
        let '(translation, pm') := pm_getTranslation objectID pm in
        Returns translation (forwarded (getTranslation_call objectID) pm' this)
    | None => Returns Vector3_default this
    end.

Definition setRotation (rotation : Quaternion) (objectID sceneID : Z)
    : M (Simulator PW) unit :=
  fun this =>
    match physicsFor sceneID this with
    | Some pm =>
        Returns tt (forwarded (setRotation_call objectID rotation)
                      (pm_setRotation objectID rotation pm) this)
    | None => Returns tt this
    end.

Definition getRotation (objectID sceneID : Z) : M (Simulator PW) Quaternion :=
  fun this =>
    match physicsFor sceneID this with
    | Some pm =>
        let '(rotation, pm') := pm_getRotation objectID pm in
        Returns rotation (forwarded (getRotation_call objectID) pm' this)
    | None => Returns Quaternion_default this
    end.

(** The validation contract in the specification's words: a physics
    world is bound and [0 <= sceneID < ] the number of graph ids
    recorded in [sceneID_]. *)
Definition physicsBound (this : Simulator PW) : bool :=
  bool_decide (is_Some (physicsManager_ this)).

Definition sceneAllocated (sceneID : Z) (this : Simulator PW) : bool :=
  bool_decide (0 <= sceneID < Z.of_nat (length (sceneID_ this))).

(** *** What a run of [reconfigure] asks of the resource loader *)

(** The resource loader's answer for the primary scene asset when
    [reconfigure cfg] runs on [this]: [None] when the run never calls
    the loader (the configuration compares equal to the stored one, or
    no renderer is requested), otherwise the success flag it reports. *)
Definition primaryLoad (cfg : SimulatorConfiguration) (this : Simulator PW)
    : option bool :=
  if SimulatorConfiguration_eqb cfg (config_ this) then None
  else if createRenderer cfg then
    let sceneInfo := fromPath env (sceneFilename_of cfg) in
    let newID := Z.of_nat (sceneManager_ this) in
    Some (if enablePhysics cfg
          then fst (loadScene_physics env sceneInfo (physicsManager_ this) newID
                      (physicsConfigFile cfg))
          else loadScene env sceneInfo newID)
  else None.

(** The companion semantic mesh [reconfigure] looks for. *)
Definition semanticMeshFilename_of (cfg : SimulatorConfiguration) : string :=
  removeExtension env (houseFilename_of cfg) +:+ "_semantic.ply".

(** The validation contract of one object-addressing method [m]: when
    a physics world is bound and [sceneID] is allocated, [m] is the
    physics world's method [forwardTo], run on the bound world and
    logged as the call [c]; otherwise [m] returns [sentinel] and leaves
    the simulator as it was. *)
Definition guarded {A} (sceneID : Z) (m : M (Simulator PW) A) (c : PhysicsCall)
    (forwardTo : PW -> A * PW) (sentinel : A) (this : Simulator PW) : Prop :=
  if physicsBound this && sceneAllocated sceneID this
  then exists pm,
         physicsManager_ this = Some pm /\
         m this = Returns (forwardTo pm).1 (forwarded c (forwardTo pm).2 this) /\
         calls_since this (state_of (m this)) = [physics_call c]
  else m this = Returns sentinel this /\
       calls_since this (state_of (m this)) = [].

End Methods.

(** *** Counting calls in a log *)

Definition isLoadScene (c : Call) : bool :=
  match c with loadScene_call _ _ _ _ => true | _ => false end.
Definition isInitSceneGraph (c : Call) : bool :=
  match c with initSceneGraph_call _ => true | _ => false end.
Definition isLoadMp3dHouse (c : Call) : bool :=
  match c with loadMp3dHouse_call _ => true | _ => false end.
Definition isLoadSuncgHouse (c : Call) : bool :=
  match c with loadSuncgHouse_call _ => true | _ => false end.

Definition count (p : Call -> bool) (l : list Call) : nat :=
  length (List.filter p l).

End Simulator.

(** ** A concrete environment

    A file system given by the list of paths that exist, a resource loader
    that succeeds on the existing files that are not listed as broken, and a
    small physics world.  The theorems below hold for every environment;
    this one is where they are run on concrete inputs. *)

Module Scenario.
Import Magnum Cpp Simulator.

(** A physics world that keeps the translation of every live object. *)
Record World := mkWorld {
  translations : gmap Z Vector3;
  nextObjectID : Z;
  resets : nat
}.

Definition emptyWorld : World := mkWorld ∅ 0 0%nat.

#[export] Instance World_PhysicsManager : PhysicsManager World := {|
  pm_reset w := mkWorld (translations w) (nextObjectID w) (S (resets w));
  pm_addObject _ _ w :=
    (nextObjectID w,
     mkWorld (<[nextObjectID w := Vector3_default]> (translations w))
             (nextObjectID w + 1) (resets w));
  pm_getExistingObjectIDs w := (map fst (map_to_list (translations w)), w);
  pm_removeObject objectID w :=
    mkWorld (delete objectID (translations w)) (nextObjectID w) (resets w);
  pm_applyTorque _ _ w := w;
  pm_applyForce _ _ _ w := w;
  pm_setTransformation _ _ w := w;
  pm_getTransformation _ w := (Matrix4_fromDiagonal (Vector4_fill Float32.one), w);
  pm_setTranslation objectID t w :=
    mkWorld (<[objectID := t]> (translations w)) (nextObjectID w) (resets w);
  pm_getTranslation objectID w :=
    (default Vector3_default (translations w !! objectID), w);
  pm_setRotation _ _ w := w;
  pm_getRotation _ w := (Quaternion_default, w)
|}.

Definition endsWith (s suffix : string) : bool :=
  String.prefix (String.rev suffix) (String.rev s).

(** What is left of a reversed path after its first dot, if it has one. *)
Fixpoint afterDot (reversed : string) : option string :=
  match reversed with
  | EmptyString => None
  | String c rest => if Ascii.eqb c "."%char then Some rest else afterDot rest
  end.

Definition io_removeExtension (path : string) : string :=
  match afterDot (String.rev path) with
  | Some stem => String.rev stem
  | None => path
  end.

Definition io_changeExtension (path ext : string) : string :=
  io_removeExtension path +:+ ext.

Definition AssetInfo_fromPath (path : string) : AssetInfo :=
  mkAssetInfo
    (if endsWith path "_semantic.ply" then INSTANCE_MESH
     else if endsWith path "mesh.ply" then FRL_INSTANCE_MESH
     else if endsWith path "house.json" then SUNCG_SCENE
     else OTHER_ASSET)
    path.

Definition vec3f_eqb (a b : vec3f) : bool :=
  let '(ax, ay, az) := a in
  let '(bx, by_, bz) := b in
  Float32.eqb ax bx && Float32.eqb ay by_ && Float32.eqb az bz.

Definition SceneConfiguration_equal (a b : SceneConfiguration) : bool :=
  String.eqb (dataset a) (dataset b) && String.eqb (id a) (id b) &&
  bool_decide (filepaths a = filepaths b) &&
  vec3f_eqb (sceneUpDir a) (sceneUpDir b) &&
  vec3f_eqb (sceneFrontDir a) (sceneFrontDir b) &&
  Float32.eqb (sceneScaleUnit a) (sceneScaleUnit b).

Definition disk (files broken : list string) : Collaborators World :=
  let loads (info : AssetInfo) : bool :=
    bool_decide (filepath info ∈ files) && negb (bool_decide (filepath info ∈ broken)) in
  mkCollaborators World (-1) SceneConfiguration_equal io_changeExtension io_removeExtension
    (fun path => bool_decide (path ∈ files)) AssetInfo_fromPath
    (fun info _ => loads info)
    (fun info _ _ _ => (loads info, Some emptyWorld)).

Definition f0 : f32 := Float32.zero.
Definition f1 : f32 := Float32.one.

Definition sceneAt (sceneId : string) (paths : gmap string string) : SceneConfiguration :=
  mkSceneConfiguration "" sceneId paths (f0, f1, f0) (f0, f0, Float32.sub f0 f1) f1.

(** A 640x480 configuration on GPU 0 for the scene [sceneId]. *)
Definition configFor (sceneId : string) (paths : gmap string string)
    (renderer physics : bool) : SimulatorConfiguration :=
  mkSimulatorConfiguration (sceneAt sceneId paths) 0 "rgba_camera" 0 640 480
    false renderer physics "data/default.phys_scene_config.json".

(** A simulator on which [reconfigure] has not run yet: no graph, no
    context, no renderer, no physics world, both active ids undefined. *)
Definition blank : Simulator World :=
  mkSimulator (configFor "" ∅ true false) 0 [] (-1) (-1) None None None None [].

(** An apartment scanned as an FRL instance mesh, with an explicit house
    file next to it and the semantic mesh that goes with the house. *)
Definition apartmentFiles : list string :=
  ["apartment_0/mesh.ply"; "apartment_0/info.house"; "apartment_0/info_semantic.ply"].

Definition apartment : SimulatorConfiguration :=
  configFor "apartment_0/mesh.ply" {["house"%string := "apartment_0/info.house"%string]}
    true false.

(** A second apartment, configured without a renderer. *)
Definition apartmentNoRenderer : SimulatorConfiguration :=
  configFor "apartment_1/mesh.ply" ∅ false false.

(** A SUNCG house with a Matterport-style house file of the same stem. *)
Definition suncgFiles : list string := ["suncg/house.json"; "suncg/house.house"].

Definition suncg : SimulatorConfiguration :=
  configFor "suncg/house.json" ∅ true false.

(** A Matterport scan with its house file and semantic mesh. *)
Definition mp3dFiles : list string :=
  ["mp3d/17DRP5sb8fy.glb"; "mp3d/17DRP5sb8fy.house"; "mp3d/17DRP5sb8fy_semantic.ply"].

Definition mp3d : SimulatorConfiguration :=
  configFor "mp3d/17DRP5sb8fy.glb" ∅ true true.

(** A scene whose mesh is nowhere on disk. *)
Definition missing : SimulatorConfiguration :=
  configFor "missing.glb" ∅ true false.

(** The state a call leaves behind, whether it returned or threw. *)
Definition after {A} (m : M (Simulator World) A) (this : Simulator World)
    : Simulator World :=
  state_of (m this).

End Scenario.

(** ** C++ [double] *)

Module Float64.

Definition prec : Z := 53.
Definition emax : Z := 1024.

Definition double : Type := spec_float.

End Float64.

Abbreviation f64 := Float64.double.

(** ** esp/gfx/Simulator.cpp: graph accessors and world time *)

Module SimulatorQueries.
Import Magnum Cpp Simulator.
Local Open Scope cpp_scope.

(** The methods of [physics::PhysicsManager] that [stepWorld] and
    [getWorldTime] call. *)
Class PhysicsClock (PW : Type) := {
  pm_stepPhysics : f64 -> PW -> PW;
  pm_getWorldTime : PW -> f64 * PW
}.

Section Queries.
Context {PW : Type} `{PhysicsClock PW}.

(** [CHECK_GE(activeSceneID_, 0); CHECK_LT(activeSceneID_, sceneID_.size());
    return sceneManager_.getSceneGraph(activeSceneID_)].  A failed CHECK
    ends the process: [None].  The graph is named by its id. *)
Definition getActiveSceneGraph (this : Simulator PW) : option Z :=
  if negb (0 <=? activeSceneID_ this) then None
  else if negb (activeSceneID_ this <? Z.of_nat (length (sceneID_ this))) then None
  else Some (activeSceneID_ this).

Definition getActiveSemanticSceneGraph (this : Simulator PW) : option Z :=
  if negb (0 <=? activeSemanticSceneID_ this) then None
  else if negb (activeSemanticSceneID_ this <? Z.of_nat (length (sceneID_ this)))
  then None
  else Some (activeSemanticSceneID_ this).

(** [std::shared_ptr<Renderer> getRenderer()] and its two siblings. *)
Definition getRenderer (this : Simulator PW) : option (Z * Z) := renderer_ this.
Definition getPhysicsManager (this : Simulator PW) : option PW := physicsManager_ this.
Definition getSemanticScene (this : Simulator PW) : option (list HouseSource) :=
  semanticScene_ this.

(** [NO_TIME], declared outside Simulator.cpp. *)
Context (NO_TIME : f64).

Definition getWorldTime : M (Simulator PW) f64 :=
  fun this =>
    match physicsManager_ this with
    | Some pm =>
        let '(time, pm') := pm_getWorldTime pm in
        Returns time (set_physicsManager_ (Some pm') this)
    | None => Returns NO_TIME this
    end.

Definition stepWorld (dt : f64) : M (Simulator PW) f64 :=
  (fun this =>
     match physicsManager_ this with
     | Some pm => Returns tt (set_physicsManager_ (Some (pm_stepPhysics dt pm)) this)
     | None => Returns tt this
     end);;
  getWorldTime.

(** [stepWorld] called once for every step in [dts], collecting the times
    it returns. *)
Fixpoint stepWorld_each (dts : list f64) : M (Simulator PW) (list f64) :=
  match dts with
  | [] => ret []
  | dt :: rest =>
      let* time := stepWorld dt in
      let* times := stepWorld_each rest in
      ret (time :: times)
  end.

End Queries.

(** The graph ids recorded so far are 0, 1, ..., in the order the scene
    manager handed them out. *)
Definition graphsEnumerated {PW} (this : Simulator PW) : Prop :=
  sceneID_ this = map Z.of_nat (seq 0 (sceneManager_ this)).

(** Whether [reconfigure cfg] on [this] loads a companion semantic mesh
    into a graph of its own. *)
Definition loadsSemanticMesh {PW} `{PhysicsManager PW} (env : Collaborators PW)
    (cfg : SimulatorConfiguration) (this : Simulator PW) : bool :=
  match primaryLoad env cfg this with
  | Some true =>
      exists_ env (houseFilename_of env cfg) &&
      exists_ env (semanticMeshFilename_of env cfg)
  | _ => false
  end.

(** What an object-addressing method may change is the physics world and
    the call log; this is everything else staying as it was. *)
Definition sameBookkeeping {PW} (before after : Simulator PW) : Prop :=
  config_ after = config_ before /\
  sceneManager_ after = sceneManager_ before /\
  sceneID_ after = sceneID_ before /\
  activeSceneID_ after = activeSceneID_ before /\
  activeSemanticSceneID_ after = activeSemanticSceneID_ before /\
  context_ after = context_ before /\
  renderer_ after = renderer_ before /\
  semanticScene_ after = semanticScene_ before /\
  physicsBound after = physicsBound before.

End SimulatorQueries.

(** ** A physics world with a clock, for the concrete runs *)

Module ScenarioClock.
Import Magnum Cpp Simulator SimulatorQueries Scenario.

(** The world of [Scenario] together with its simulated time. *)
Record TimedWorld := mkTimedWorld { world : World; now : f64 }.

Definition onWorld (f : World -> World) (w : TimedWorld) : TimedWorld :=
  mkTimedWorld (f (world w)) (now w).

Definition askWorld {A} (f : World -> A * World) (w : TimedWorld) : A * TimedWorld :=
  ((f (world w)).1, mkTimedWorld (f (world w)).2 (now w)).

#[export] Instance TimedWorld_PhysicsManager : PhysicsManager TimedWorld := {|
  pm_reset := onWorld pm_reset;
  pm_addObject lib sceneID := askWorld (pm_addObject lib sceneID);
  pm_getExistingObjectIDs := askWorld pm_getExistingObjectIDs;
  pm_removeObject objectID := onWorld (pm_removeObject objectID);
  pm_applyTorque objectID tau := onWorld (pm_applyTorque objectID tau);
  pm_applyForce objectID force relPos := onWorld (pm_applyForce objectID force relPos);
  pm_setTransformation objectID t := onWorld (pm_setTransformation objectID t);
  pm_getTransformation objectID := askWorld (pm_getTransformation objectID);
  pm_setTranslation objectID t := onWorld (pm_setTranslation objectID t);
  pm_getTranslation objectID := askWorld (pm_getTranslation objectID);
  pm_setRotation objectID q := onWorld (pm_setRotation objectID q);
  pm_getRotation objectID := askWorld (pm_getRotation objectID)
|}.

#[export] Instance TimedWorld_PhysicsClock : PhysicsClock TimedWorld := {|
  pm_stepPhysics dt w :=
    mkTimedWorld (world w) (SFadd Float64.prec Float64.emax (now w) dt);
  pm_getWorldTime w := (now w, w)
|}.

Definition seconds (m e : Z) : f64 :=
  binary_normalize Float64.prec Float64.emax m e false.

(** The environment of [Scenario.disk] for the timed world; a load with
    physics binds a fresh world at time 0. *)
Definition timedDisk (files broken : list string) : Collaborators TimedWorld :=
  let loads (info : AssetInfo) : bool :=
    bool_decide (filepath info ∈ files) && negb (bool_decide (filepath info ∈ broken)) in
  mkCollaborators TimedWorld (-1) SceneConfiguration_equal io_changeExtension
    io_removeExtension
    (fun path => bool_decide (path ∈ files)) AssetInfo_fromPath
    (fun info _ => loads info)
    (fun info _ _ _ => (loads info, Some (mkTimedWorld emptyWorld (seconds 0 0)))).

Definition timedBlank : Simulator TimedWorld :=
  mkSimulator (configFor "" ∅ true false) 0 [] (-1) (-1) None None None None [].

(** The Matterport scan without physics. *)
Definition mp3dNoPhysics : SimulatorConfiguration :=
  configFor "mp3d/17DRP5sb8fy.glb" ∅ true false.

(** The SUNCG house again, this time asking for GPU device 1. *)
Definition suncgOnGpu1 : SimulatorConfiguration :=
  mkSimulatorConfiguration (sceneAt "suncg/house.json" ∅) 0 "rgba_camera" 1 640 480
    false true false "data/default.phys_scene_config.json".

(** The Matterport scan with nothing next to it. *)
Definition bareMp3dFiles : list string := ["mp3d/17DRP5sb8fy.glb"].

End ScenarioClock.

(** * Properties *)

(** ** Floating-point and list lemmas *)

Section FloatFacts.

Lemma Float32_mul_comm (x y : f32) : Float32.mul x y = Float32.mul y x.
Proof.
  unfold Float32.mul, SFmul.
  destruct x as [sx | sx | | sx mx ex], y as [sy | sy | | sy my ey];
    try reflexivity; rewrite (xorb_comm sx sy); try reflexivity.
  rewrite (Pos.mul_comm mx my). f_equal. apply Z.add_comm.
Qed.

End FloatFacts.

(** ** Depth unprojection *)

Section DepthUnprojectionFacts.
Import Magnum DepthUnprojection.

Lemma insert_middle (done rest : list f32) (d x : f32) :
  <[length done := x]> (done ++ d :: rest) = (done ++ [x]) ++ rest.
Proof.
  rewrite <- (Nat.add_0_r (length done)).
  rewrite insert_app_r. simpl. rewrite <- app_assoc. reflexivity.
Qed.

Lemma unprojectDepth_body_middle unprojection (done rest : list f32) d :
  unprojectDepth_body unprojection (length done) (done ++ d :: rest)
  = Some ((done ++ [linearDepth (Vector2_at unprojection 0)
                                (Vector2_at unprojection 1) d]) ++ rest).
Proof.
  unfold unprojectDepth_body, linearDepth.
  rewrite list_lookup_middle by reflexivity.
  destruct (Float32.eqb d Float32.one); rewrite insert_middle; reflexivity.
Qed.

(** Loop invariant: the entries before [i] are converted, the entries
    from [i] on are still raw. *)
Lemma unprojectDepth_loop_map unprojection (rest : list f32) :
  forall done : list f32,
    unprojectDepth_loop unprojection (length rest) (length done) (done ++ rest)
    = done ++ map (linearDepth (Vector2_at unprojection 0)
                               (Vector2_at unprojection 1)) rest.
Proof.
  induction rest as [| d rest IH]; intros done;
    cbn [unprojectDepth_loop length map].
  - reflexivity.
  - rewrite unprojectDepth_body_middle.
    match goal with
    | |- context [(done ++ [?x]) ++ rest] => specialize (IH (done ++ [x]))
    end.
    rewrite length_app in IH. cbn [length] in IH.
    rewrite Nat.add_1_r in IH. rewrite IH.
    rewrite <- app_assoc. reflexivity.
Qed.

Lemma unprojectDepth_map unprojection (depth : list f32) :
  unprojectDepth unprojection depth
  = map (linearDepth (Vector2_at unprojection 0) (Vector2_at unprojection 1)) depth.
Proof.
  unfold unprojectDepth.
  exact (unprojectDepth_loop_map unprojection depth []).
Qed.

(** C5.  For every projection matrix [P] the coefficients are
    [a = 0.5 * (P[2][2] - 1)] and [b = 0.5 * P[3][2]]; [unprojectDepth]
    replaces every entry [d] of the buffer by 0 when [d == 1.0f] and by
    [b / (d + a)] otherwise; with [P[2][2] = 3] and [P[3][2] = 4] the
    coefficients are (1, 2) and the raw depth 0.5 becomes [2 / (0.5 + 1)],
    which is the binary32 number 11184811 * 2^-23. *)
Theorem depth_unprojection_per_pixel :
  (forall P : Matrix4,
      calculateDepthUnprojection P
      = mkVector2 (Float32.mul Float32.half (Float32.sub (Matrix4_at P 2 2) Float32.one))
                  (Float32.mul Float32.half (Matrix4_at P 3 2))) /\
  (forall (a b : f32) (depth : list f32),
      unprojectDepth (mkVector2 a b) depth
      = map (fun d => if Float32.eqb d Float32.one then Float32.zero
                      else Float32.div b (Float32.add d a)) depth) /\
  (forall (c0 c1 : Vector4) (p20 p21 p23 p30 p31 p33 : f32),
      let P := mkMatrix4 c0 c1 (mkVector4 p20 p21 (Float32.lit 3 0) p23)
                               (mkVector4 p30 p31 (Float32.lit 4 0) p33) in
      calculateDepthUnprojection P = mkVector2 (Float32.lit 1 0) (Float32.lit 2 0) /\
      unprojectDepth (calculateDepthUnprojection P) [Float32.lit 1 (-1); Float32.lit 1 0]
      = [Float32.div (Float32.lit 2 0) (Float32.add (Float32.lit 1 (-1)) (Float32.lit 1 0));
         Float32.zero] /\
      Float32.div (Float32.lit 2 0) (Float32.add (Float32.lit 1 (-1)) (Float32.lit 1 0))
      = S754_finite false 11184811 (-23)).
Proof.
  split; [| split].
  - intros P. unfold calculateDepthUnprojection, Vector2_scale.
    cbn [v2_0 v2_1]. f_equal; apply Float32_mul_comm.
  - intros a b depth. rewrite unprojectDepth_map. reflexivity.
  - intros c0 c1 p20 p21 p23 p30 p31 p33 P.
    assert (calculateDepthUnprojection P
            = mkVector2 (Float32.lit 1 0) (Float32.lit 2 0)) as Hc.
    { subst P. vm_compute. reflexivity. }
    split; [exact Hc |]. rewrite Hc. split; vm_compute; reflexivity.
Qed.

End DepthUnprojectionFacts.

(** ** Sensor *)

Section SensorFacts.
Import Magnum Cpp Sensor.

Lemma Vector2i_neqb_false (a b : Vector2i) :
  Vector2i_neqb a b = false <-> v2i_x a = v2i_x b /\ v2i_y a = v2i_y b.
Proof.
  unfold Vector2i_neqb. rewrite negb_false_iff, andb_true_iff, !Z.eqb_eq.
  reflexivity.
Qed.

(** C8.  The framebuffer size of a sensor is (width, height) =
    (resolution[1], resolution[0]), the H x W resolution swapped.
    [bindRenderTarget] throws, leaving the sensor as it was, exactly when
    the target's size differs from it in a component; a target of that
    very size is bound, and a later [renderTarget()] returns it. *)
Theorem bindRenderTarget_checks_framebufferSize :
  forall (this : Sensor) (tgt : RenderTarget),
    framebufferSize this
    = mkVector2i (vec2i_1 (resolution (spec_ this))) (vec2i_0 (resolution (spec_ this))) /\
    bindRenderTarget tgt this
    = (if bool_decide (v2i_x (rt_framebufferSize tgt) = vec2i_1 (resolution (spec_ this)) /\
                       v2i_y (rt_framebufferSize tgt) = vec2i_0 (resolution (spec_ this)))
       then Returns tt (mkSensor (spec_ this) (Some tgt))
       else Throws (runtime_error "RenderTarget is not the correct size") this) /\
    bind (bindRenderTarget (mkRenderTarget (framebufferSize this))) (fun _ => renderTarget) this
    = Returns (mkRenderTarget (framebufferSize this))
              (mkSensor (spec_ this) (Some (mkRenderTarget (framebufferSize this)))).
Proof.
  intros this tgt. split; [reflexivity |]. split.
  - unfold bindRenderTarget.
    destruct (Vector2i_neqb (rt_framebufferSize tgt) (framebufferSize this)) eqn:E.
    + rewrite bool_decide_eq_false_2; [reflexivity |].
      intros Hsame.
      apply (Vector2i_neqb_false (rt_framebufferSize tgt) (framebufferSize this))
        in Hsame.
      congruence.
    + rewrite bool_decide_eq_true_2; [reflexivity |].
      apply Vector2i_neqb_false in E. exact E.
  - unfold bind, bindRenderTarget.
    replace (Vector2i_neqb _ _) with false; [reflexivity |].
    symmetry. apply Vector2i_neqb_false. split; reflexivity.
Qed.

End SensorFacts.

(** ** Configuration equality *)

Section ConfigurationFacts.
Import Magnum Cpp Simulator Scenario.

Lemma string_compare_Eq_refl (s : string) : String.compare s s = Eq.
Proof.
  pose proof (String.compare_antisym s s) as Hanti.
  destruct (String.compare s s); simpl in Hanti; congruence.
Qed.

(** [operator==] never reads the GPU device, the width or the height. *)
Lemma SimulatorConfiguration_eqb_blind {PW} (env : Collaborators PW)
    (a b : SimulatorConfiguration) (gpu w h : Z) :
  SimulatorConfiguration_eqb env
    (mkSimulatorConfiguration (scene a) (defaultAgentId a) (defaultCameraUuid a)
       gpu w h (compressTextures a) (createRenderer a) (enablePhysics a)
       (physicsConfigFile a)) b
  = SimulatorConfiguration_eqb env a b.
Proof. reflexivity. Qed.

(** C1, on the code.  Two configurations for the same scene that ask for
    GPU 0 at 640x480 and for GPU 1 at 1280x720 compare equal, and a
    [reconfigure] to the second on a simulator configured with the first
    only resets: the renderer keeps its 640x480 size and no graph is
    created. *)
Theorem SimulatorConfiguration_eq_ignores_gpu_and_size :
  let env := disk ["scene.glb"] [] in
  let a := configFor "scene.glb" ∅ true false in
  let b := mkSimulatorConfiguration (scene a) 0 "rgba_camera" 1 1280 720
             false true false "data/default.phys_scene_config.json" in
  let this := after (reconfigure env a) blank in
  SimulatorConfiguration_eqb env a b = true /\
  gpuDeviceId a <> gpuDeviceId b /\ width a <> width b /\ height a <> height b /\
  renderer_ this = Some (640, 480) /\
  reconfigure env b this = Returns tt this.
Proof. vm_compute. repeat split; discriminate. Qed.

End ConfigurationFacts.

(** ** reconfigure and reset *)

Section ReconfigureFacts.
Import Magnum Cpp Simulator.
Context {PW : Type} `{PhysicsManager PW}.
Implicit Types (env : Collaborators PW) (this : Simulator PW)
  (cfg : SimulatorConfiguration).

Lemma calls_since_app this this' (l : list Call) :
  calls_ this' = calls_ this ++ l -> calls_since this this' = l.
Proof.
  intros E. unfold calls_since. rewrite E. apply drop_app_length.
Qed.

Lemma calls_since_same this this' :
  calls_ this' = calls_ this -> calls_since this this' = [].
Proof.
  intros E. apply calls_since_app. rewrite app_nil_r. exact E.
Qed.

(** [reset] forwards to the physics world if there is one, and does
    nothing else. *)
Lemma reset_spec this :
  reset this
  = Returns tt
      match physicsManager_ this with
      | Some pm => forwarded reset_call (pm_reset pm) this
      | None => this
      end.
Proof. unfold reset. destruct (physicsManager_ this); reflexivity. Qed.

Lemma reconfigure_unchanged env cfg this :
  SimulatorConfiguration_eqb env cfg (config_ this) = true ->
  reconfigure env cfg this = reset this.
Proof.
  intros E. unfold reconfigure, bind, get. rewrite E. reflexivity.
Qed.

(** C2.  When the configuration compares equal to the stored one,
    [reconfigure] is [reset]: it returns, the scene manager holds the same
    graphs, the list of graph ids, both active ids, the stored
    configuration, the context, the renderer and the semantic scene are
    the ones from before, and the only call made is the physics world's
    [reset], if a physics world is bound. *)
Theorem reconfigure_equal_configuration_only_resets :
  forall env cfg this,
    SimulatorConfiguration_eqb env cfg (config_ this) = true ->
    reconfigure env cfg this = reset this /\
    exists this',
      reconfigure env cfg this = Returns tt this' /\
      sceneManager_ this' = sceneManager_ this /\
      sceneID_ this' = sceneID_ this /\
      activeSceneID_ this' = activeSceneID_ this /\
      activeSemanticSceneID_ this' = activeSemanticSceneID_ this /\
      config_ this' = config_ this /\
      context_ this' = context_ this /\
      renderer_ this' = renderer_ this /\
      semanticScene_ this' = semanticScene_ this /\
      calls_since this this'
      = (if physicsBound this then [physics_call reset_call] else []).
Proof.
  intros env cfg this E. split; [apply reconfigure_unchanged, E |].
  rewrite (reconfigure_unchanged env cfg this E), reset_spec.
  eexists. split; [reflexivity |].
  unfold physicsBound.
  destruct this as [c0 n ids a sa ctx r [pm |] sc calls];
    unfold forwarded, called; cbn.
  - repeat split. apply drop_app_length.
  - repeat split. apply drop_all.
Qed.

Ltac unfold_reconfigure :=
  unfold reconfigure, primaryLoad, semanticMeshFilename_of, bind, get, modify,
    when, ret, throw, initSceneGraph, resourceManager_loadScene,
    resourceManager_loadScene_physics, loadMp3dHouse, loadSuncgHouse, reset,
    forwarded, called, physicsBound.

Ltac keep :=
  cbn -[sceneFilename_of houseFilename_of Z.of_nat String.append app].

(** Decide every condition the run depends on: from a hypothesis when
    there is one, by case analysis otherwise. *)
Ltac crunch :=
  repeat (keep;
    once (match goal with
          | H : ?t = _ |- context [AssetType_eqb ?t _] => rewrite H
          | H : ?b = _ |- context [negb ?b] => rewrite H
          | H : ?b = _ |- context [if ?b then _ else _] => rewrite H
          | H : ?p = _ |- context [let '(_, _) := ?p in _] => rewrite H
          | H : ?x = _ |- context [match ?x with _ => _ end] => rewrite H
          | |- context [AssetType_eqb ?t _] => destruct t eqn:?
          | |- context [negb ?b] => destruct b eqn:?
          | |- context [if ?b then _ else _] => destruct b eqn:?
          | |- context [let '(_, _) := ?p in _] => destruct p eqn:?
          | |- context [match ?x with _ => _ end] => destruct x eqn:?
          end)).

(** Read the calls made off an explicit final state. *)
Ltac read_calls :=
  unfold calls_since; keep; rewrite <- ?app_assoc, drop_app_length; keep.

(** The list of graph ids grows in step with the scene manager, whether
    [reconfigure] returns or throws: its length is the number of graphs
    created so far. *)
Lemma reconfigure_graph_count env cfg this :
  length (sceneID_ this) = sceneManager_ this ->
  length (sceneID_ (state_of (reconfigure env cfg this)))
  = sceneManager_ (state_of (reconfigure env cfg this)).
Proof.
  destruct this as [c0 n ids a sa [gpu |] r [pm |] sc calls]; keep; intros Hn.
  all: unfold_reconfigure. all: crunch.
  all: keep. all: rewrite ?length_app. all: keep. all: clear - Hn. all: lia.
Qed.

(** Unfold [primaryLoad] in a hypothesis down to the loader's answer. *)
Ltac primary_load H :=
  unfold primaryLoad in H; cbn [config_ sceneManager_ physicsManager_] in H;
  match type of H with
  | context [SimulatorConfiguration_eqb ?e ?c ?c0] =>
      destruct (SimulatorConfiguration_eqb e c c0) eqn:Eeq; [discriminate H |];
      destruct (createRenderer c) eqn:Erend; [| discriminate H];
      destruct (enablePhysics c) eqn:Ephys;
      [ match type of H with
        | context [loadScene_physics ?a ?b ?c ?d ?e] =>
            destruct (loadScene_physics a b c d e) as [ok pm1] eqn:Eload;
            cbn [fst] in H; injection H as H; subst ok
        end
      | injection H as Eload ]
  end.

(** C6.  Whenever the resource loader reports failure for the primary
    scene asset, [reconfigure] throws [invalid_argument("Cannot load: " +
    sceneFilename)]; the failed load is the last call made, and the only
    load attempted. *)
Theorem reconfigure_throws_when_scene_load_fails :
  forall env cfg this,
    primaryLoad env cfg this = Some false ->
    exists this',
      reconfigure env cfg this
      = Throws (invalid_argument ("Cannot load: " +:+ sceneFilename_of cfg)) this' /\
      last (calls_since this this')
      = Some (loadScene_call (fromPath env (sceneFilename_of cfg)) (enablePhysics cfg)
                (Z.of_nat (sceneManager_ this)) false) /\
      count isLoadScene (calls_since this this') = 1%nat.
Proof.
  intros env cfg this Hload.
  destruct this as [c0 n ids a sa [gpu |] r [pm |] sc calls].
  all: primary_load Hload.
  all: unfold_reconfigure.
  all: crunch.
  all: keep.
  all: eexists; (split; [reflexivity |]).
  all: read_calls.
  all: split; reflexivity.
Qed.

Lemma reset_makes_no_load this :
  count isLoadScene (calls_since this (state_of (reset this))) = 0%nat.
Proof.
  destruct this as [c0 n ids a sa ctx r [pm |] sc calls];
    unfold reset, forwarded, called, calls_since; cbn.
  - rewrite drop_app_length. reflexivity.
  - rewrite drop_all. reflexivity.
Qed.

(** [reconfigure] throws only for a failed primary load, and by then the
    new configuration is the stored one. *)
Lemma reconfigure_throws_inv env cfg this e this' :
  reconfigure env cfg this = Throws e this' ->
  primaryLoad env cfg this = Some false /\
  e = invalid_argument ("Cannot load: " +:+ sceneFilename_of cfg) /\
  config_ this' = cfg.
Proof.
  destruct this as [c0 n ids a sa [gpu |] r [pm |] sc calls].
  all: unfold_reconfigure.
  all: crunch.
  all: keep.
  all: try discriminate.
  all: intros [= <- <-].
  all: repeat split.
Qed.

(** C10.  When [reconfigure cfg] throws, the loader had reported failure
    for the primary scene asset and the stored configuration is already
    [cfg]; a later [reconfigure] with a configuration that compares equal
    to [cfg] is therefore just [reset], and attempts no load. *)
Theorem failed_reconfigure_has_adopted_the_configuration :
  forall env cfg this e this',
    reconfigure env cfg this = Throws e this' ->
    primaryLoad env cfg this = Some false /\
    config_ this' = cfg /\
    forall env2 cfg2,
      SimulatorConfiguration_eqb env2 cfg2 cfg = true ->
      reconfigure env2 cfg2 this' = reset this' /\
      count isLoadScene (calls_since this' (state_of (reconfigure env2 cfg2 this')))
      = 0%nat.
Proof.
  intros env cfg this e this' Hthrow.
  destruct (reconfigure_throws_inv env cfg this e this' Hthrow) as (Hload & _ & Hcfg).
  split; [exact Hload |]. split; [exact Hcfg |].
  intros env2 cfg2 Heq. rewrite <- Hcfg in Heq.
  rewrite (reconfigure_unchanged env2 cfg2 this' Heq).
  split; [reflexivity | apply reset_makes_no_load].
Qed.

(** C4, as amended.  In a [reconfigure] that does not short-circuit and
    returns, [loadMp3dHouse] runs exactly when the house file exists and
    [loadSuncgHouse] runs exactly when the asset type is [SUNCG_SCENE];
    the two tests are independent, so when both hold both loaders run,
    the Matterport one first. *)
Theorem semantic_loaders_are_selected_independently :
  forall env cfg this this',
    SimulatorConfiguration_eqb env cfg (config_ this) = false ->
    reconfigure env cfg this = Returns tt this' ->
    count isLoadMp3dHouse (calls_since this this')
    = (if exists_ env (houseFilename_of env cfg) then 1 else 0)%nat /\
    count isLoadSuncgHouse (calls_since this this')
    = (if AssetType_eqb (type (fromPath env (sceneFilename_of cfg))) SUNCG_SCENE
       then 1 else 0)%nat /\
    semanticScene_ this'
    = Some ((if exists_ env (houseFilename_of env cfg)
             then [Mp3dHouse (houseFilename_of env cfg)] else []) ++
            (if AssetType_eqb (type (fromPath env (sceneFilename_of cfg))) SUNCG_SCENE
             then [SuncgHouse (sceneFilename_of cfg)] else [])).
Proof.
  intros env cfg this this' Heq.
  destruct this as [c0 n ids a sa [gpu |] r [pm |] sc calls].
  all: cbn [config_] in Heq.
  all: unfold_reconfigure.
  all: crunch.
  all: keep.
  all: try discriminate.
  all: intros [= <-].
  all: read_calls.
  all: repeat split.
Qed.

(** C7, as amended.  In a [reconfigure] that does not short-circuit,
    creates a renderer and returns, an asset of one of the three
    embedded-semantics types leaves the active semantic scene id equal to
    the active scene id; a second graph is created exactly when the house
    file and its companion semantic mesh both exist. *)
Theorem embedded_semantics_share_the_primary_graph :
  forall env cfg this this',
    SimulatorConfiguration_eqb env cfg (config_ this) = false ->
    createRenderer cfg = true ->
    containsSemantics (fromPath env (sceneFilename_of cfg)) = true ->
    reconfigure env cfg this = Returns tt this' ->
    activeSemanticSceneID_ this' = activeSceneID_ this' /\
    activeSceneID_ this' = Z.of_nat (sceneManager_ this) /\
    count isInitSceneGraph (calls_since this this')
    = (if exists_ env (houseFilename_of env cfg) &&
          exists_ env (semanticMeshFilename_of env cfg)
       then 2 else 1)%nat /\
    sceneManager_ this'
    = (sceneManager_ this +
       (if exists_ env (houseFilename_of env cfg) &&
           exists_ env (semanticMeshFilename_of env cfg)
        then 2 else 1))%nat.
Proof.
  intros env cfg this this' Heq Hrend Hsem.
  destruct this as [c0 n ids a sa [gpu |] r [pm |] sc calls].
  all: cbn [config_] in Heq.
  all: unfold containsSemantics in Hsem.
  all: destruct (type (fromPath env (sceneFilename_of cfg))) eqn:Etype;
    try discriminate Hsem; clear Hsem.
  all: unfold_reconfigure; unfold containsSemantics.
  all: crunch.
  all: keep.
  all: try discriminate.
  all: intros [= <-].
  all: read_calls.
  all: repeat split; lia.
Qed.

(** C9, as amended.  When the primary load succeeds and the house file
    and its semantic mesh exist, [reconfigure] returns whatever the
    loader answers for the semantic mesh: the semantic graph is created
    and its id recorded in [sceneID_], and it is the active semantic
    scene id unless the primary asset has embedded semantics, in which
    case the active semantic scene id is the primary graph's. *)
Theorem semantic_mesh_load_result_is_discarded :
  forall env cfg this,
    primaryLoad env cfg this = Some true ->
    exists_ env (houseFilename_of env cfg) = true ->
    exists_ env (semanticMeshFilename_of env cfg) = true ->
    exists this',
      reconfigure env cfg this = Returns tt this' /\
      sceneManager_ this' = S (S (sceneManager_ this)) /\
      sceneID_ this'
      = sceneID_ this ++ [Z.of_nat (sceneManager_ this); Z.of_nat (S (sceneManager_ this))] /\
      activeSceneID_ this' = Z.of_nat (sceneManager_ this) /\
      activeSemanticSceneID_ this'
      = (if containsSemantics (fromPath env (sceneFilename_of cfg))
         then Z.of_nat (sceneManager_ this)
         else Z.of_nat (S (sceneManager_ this))) /\
      In (loadScene_call (fromPath env (semanticMeshFilename_of env cfg)) false
            (Z.of_nat (S (sceneManager_ this)))
            (loadScene env (fromPath env (semanticMeshFilename_of env cfg))
               (Z.of_nat (S (sceneManager_ this)))))
         (calls_since this this').
Proof.
  intros env cfg this Hload Hhouse Hmesh.
  destruct this as [c0 n ids a sa [gpu |] r [pm |] sc calls].
  all: primary_load Hload.
  all: unfold semanticMeshFilename_of in Hmesh.
  all: unfold_reconfigure; unfold containsSemantics.
  all: crunch.
  all: keep.
  all: eexists; (split; [reflexivity |]).
  all: read_calls.
  all: rewrite <- ?app_assoc; keep.
  all: repeat split; try reflexivity.
  all: cbn; tauto.
Qed.
End ReconfigureFacts.

(** ** Object addressing *)

Section ObjectAddressingFacts.
Import Magnum Cpp Simulator.
Context {PW : Type} `{PhysicsManager PW}.

(** The test the code writes is the range test of the specification. *)
Lemma physicsFor_guard (sceneID : Z) (this : Simulator PW) :
  physicsFor sceneID this
  = if physicsBound this && sceneAllocated sceneID this
    then physicsManager_ this else None.
Proof.
  unfold physicsFor, physicsBound, sceneAllocated.
  destruct (physicsManager_ this) as [pm |]; [| reflexivity].
  rewrite (bool_decide_eq_true_2 (is_Some (Some pm))) by eauto.
  cbn [andb].
  destruct (bool_decide_reflect (0 <= sceneID < Z.of_nat (length (sceneID_ this))));
    destruct (Z.leb_spec 0 sceneID);
    destruct (Z.ltb_spec sceneID (Z.of_nat (length (sceneID_ this))));
    cbn [andb]; try reflexivity; lia.
Qed.

Lemma calls_since_forwarded (c : PhysicsCall) (pm : PW) (this : Simulator PW) :
  calls_since this (forwarded c pm this) = [physics_call c].
Proof.
  destruct this as [c0 n ids a sa ctx r pm0 sc calls].
  unfold calls_since, forwarded, called. cbn. apply drop_app_length.
Qed.

Lemma calls_since_refl (this : Simulator PW) : calls_since this this = [].
Proof. unfold calls_since. apply drop_all. Qed.

(** Every method of the shape [match physicsFor sceneID this with ...]
    meets the validation contract. *)
Lemma guarded_intro {A} (sceneID : Z) (m : M (Simulator PW) A) (c : PhysicsCall)
    (forwardTo : PW -> A * PW) (sentinel : A) (this : Simulator PW) :
  m this = match physicsFor sceneID this with
           | Some pm => Returns (forwardTo pm).1 (forwarded c (forwardTo pm).2 this)
           | None => Returns sentinel this
           end ->
  guarded sceneID m c forwardTo sentinel this.
Proof.
  intros Hm. unfold guarded. rewrite physicsFor_guard in Hm.
  destruct (physicsBound this && sceneAllocated sceneID this) eqn:Eguard.
  - apply andb_true_iff in Eguard as [Hbound _].
    unfold physicsBound in Hbound. apply bool_decide_eq_true in Hbound as [pm Hpm].
    rewrite Hpm in Hm. exists pm. split; [exact Hpm |]. split; [exact Hm |].
    rewrite Hm. apply calls_since_forwarded.
  - split; [exact Hm |]. rewrite Hm. apply calls_since_refl.
Qed.

(** C3.  Each of the ten object-addressing methods forwards to the
    physics world exactly when a physics world is bound and
    [0 <= sceneID < sceneID_.size()], the number of graphs allocated;
    otherwise it changes nothing, makes no call and returns its sentinel:
    [ID_UNDEFINED] for [addObject], the identity transform, the zero
    vector and the identity rotation for the three getters, and nothing
    for the setters, [removeObject], [applyForce] and [applyTorque]. *)
Theorem object_addressing_is_guarded :
  forall (env : Collaborators PW) (this : Simulator PW)
         (objectLibIndex objectID sceneID : Z)
         (tau force relPos translation : Vector3) (transform : Matrix4)
         (rotation : Quaternion),
    guarded sceneID (addObject env objectLibIndex sceneID)
      (addObject_call objectLibIndex sceneID)
      (pm_addObject objectLibIndex sceneID) (ID_UNDEFINED env) this /\
    guarded sceneID (removeObject objectID sceneID) (removeObject_call objectID)
      (fun pm => (tt, pm_removeObject objectID pm)) tt this /\
    guarded sceneID (applyForce force relPos objectID sceneID)
      (applyForce_call objectID force relPos)
      (fun pm => (tt, pm_applyForce objectID force relPos pm)) tt this /\
    guarded sceneID (applyTorque tau objectID sceneID) (applyTorque_call objectID tau)
      (fun pm => (tt, pm_applyTorque objectID tau pm)) tt this /\
    guarded sceneID (setTransformation transform objectID sceneID)
      (setTransformation_call objectID transform)
      (fun pm => (tt, pm_setTransformation objectID transform pm)) tt this /\
    guarded sceneID (setTranslation translation objectID sceneID)
      (setTranslation_call objectID translation)
      (fun pm => (tt, pm_setTranslation objectID translation pm)) tt this /\
    guarded sceneID (setRotation rotation objectID sceneID)
      (setRotation_call objectID rotation)
      (fun pm => (tt, pm_setRotation objectID rotation pm)) tt this /\
    guarded sceneID (getTransformation objectID sceneID)
      (getTransformation_call objectID) (pm_getTransformation objectID)
      Matrix4_identity this /\
    guarded sceneID (getTranslation objectID sceneID)
      (getTranslation_call objectID) (pm_getTranslation objectID)
      (mkVector3 Float32.zero Float32.zero Float32.zero) this /\
    guarded sceneID (getRotation objectID sceneID)
      (getRotation_call objectID) (pm_getRotation objectID)
      (mkQuaternion (mkVector3 Float32.zero Float32.zero Float32.zero) Float32.one)
      this.
Proof.
  intros.
  repeat split; apply guarded_intro.
  - unfold addObject. destruct (physicsFor sceneID this) as [pm |]; [| reflexivity].
    destruct (pm_addObject objectLibIndex sceneID pm); reflexivity.
  - unfold removeObject. destruct (physicsFor sceneID this); reflexivity.
  - unfold applyForce. destruct (physicsFor sceneID this); reflexivity.
  - unfold applyTorque. destruct (physicsFor sceneID this); reflexivity.
  - unfold setTransformation. destruct (physicsFor sceneID this); reflexivity.
  - unfold setTranslation. destruct (physicsFor sceneID this); reflexivity.
  - unfold setRotation. destruct (physicsFor sceneID this); reflexivity.
  - unfold getTransformation. destruct (physicsFor sceneID this) as [pm |]; [| reflexivity].
    destruct (pm_getTransformation objectID pm); reflexivity.
  - unfold getTranslation. destruct (physicsFor sceneID this) as [pm |]; [| reflexivity].
    destruct (pm_getTranslation objectID pm); reflexivity.
  - unfold getRotation. destruct (physicsFor sceneID this) as [pm |]; [| reflexivity].
    destruct (pm_getRotation objectID pm); reflexivity.
Qed.

End ObjectAddressingFacts.

(** ** The theorems on concrete runs *)

Section ConcreteRuns.
Import Magnum Cpp Simulator Scenario.

(** C2 at work: the Matterport scene is loaded once; reconfiguring with
    the same configuration only resets the physics world. *)
Lemma reconfigure_equal_configuration_only_resets_witness :
  let env := disk mp3dFiles [] in
  let this := after (reconfigure env mp3d) blank in
  exists this',
    reconfigure env mp3d this = Returns tt this' /\
    sceneID_ this' = [0; 1] /\
    calls_since this this' = [physics_call reset_call].
Proof.
  intros env this.
  assert (SimulatorConfiguration_eqb env mp3d (config_ this) = true) as Heq
    by (vm_compute; reflexivity).
  destruct (reconfigure_equal_configuration_only_resets env mp3d this Heq)
    as (_ & this' & Hret & _ & Hids & _ & _ & _ & _ & _ & _ & Hcalls).
  exists this'. split; [exact Hret |]. split; [exact Hids | exact Hcalls].
Defined.

(** C6 at work: the mesh is missing, the load fails, [reconfigure] throws. *)
Lemma reconfigure_throws_when_scene_load_fails_witness :
  exists this',
    reconfigure (disk [] []) missing blank
    = Throws (invalid_argument "Cannot load: missing.glb") this' /\
    count isLoadScene (calls_since blank this') = 1%nat.
Proof.
  assert (primaryLoad (disk [] []) missing blank = Some false) as Hload
    by (vm_compute; reflexivity).
  destruct (reconfigure_throws_when_scene_load_fails (disk [] []) missing blank Hload)
    as (this' & Hthrow & _ & Hcount).
  exists this'. split; [exact Hthrow | exact Hcount].
Defined.

(** C10 at work: after the failed load the configuration is stored, and
    the same call again only resets. *)
Lemma failed_reconfigure_has_adopted_the_configuration_witness :
  let env := disk [] [] in
  let this' := after (reconfigure env missing) blank in
  config_ this' = missing /\
  reconfigure env missing this' = reset this'.
Proof.
  intros env this'.
  assert (reconfigure env missing blank
          = Throws (invalid_argument "Cannot load: missing.glb") this') as Hthrow
    by (vm_compute; reflexivity).
  destruct (failed_reconfigure_has_adopted_the_configuration
              env missing blank _ this' Hthrow) as (_ & Hcfg & Hagain).
  split; [exact Hcfg |].
  assert (SimulatorConfiguration_eqb env missing missing = true) as Heq
    by (vm_compute; reflexivity).
  exact (proj1 (Hagain env missing Heq)).
Defined.

(** C4 as stated fails: for a SUNCG house that has a house file next to
    it, one [reconfigure] runs the Matterport loader and then the SUNCG
    loader. *)
Lemma both_semantic_loaders_run :
  let env := disk suncgFiles [] in
  let r := reconfigure env suncg blank in
  returned r = true /\
  List.filter (fun c => isLoadMp3dHouse c || isLoadSuncgHouse c)
    (calls_since blank (state_of r))
  = [loadMp3dHouse_call "suncg/house.house"; loadSuncgHouse_call "suncg/house.json"] /\
  ~ (count isLoadMp3dHouse (calls_since blank (state_of r)) +
     count isLoadSuncgHouse (calls_since blank (state_of r)) <= 1)%nat.
Proof.
  vm_compute. split; [reflexivity |]. split; [reflexivity |]. lia.
Qed.

(** C4, as amended, at work on the same run. *)
Lemma semantic_loaders_are_selected_independently_witness :
  let env := disk suncgFiles [] in
  let this' := after (reconfigure env suncg) blank in
  count isLoadMp3dHouse (calls_since blank this') = 1%nat /\
  count isLoadSuncgHouse (calls_since blank this') = 1%nat /\
  semanticScene_ this'
  = Some [Mp3dHouse "suncg/house.house"; SuncgHouse "suncg/house.json"].
Proof.
  intros env this'.
  assert (SimulatorConfiguration_eqb env suncg (config_ blank) = false) as Hneq
    by (vm_compute; reflexivity).
  assert (reconfigure env suncg blank = Returns tt this') as Hret
    by (vm_compute; reflexivity).
  exact (semantic_loaders_are_selected_independently env suncg blank this' Hneq Hret).
Defined.

(** C7 as stated fails twice over.  Without a renderer the active
    semantic scene id is not touched: after the first apartment, the
    second gets graph 2 while the semantic id stays 0.  And with the house
    file and its semantic mesh on disk, an asset with embedded semantics
    still gets a second graph created for that mesh. *)
Lemma embedded_semantics_counterexample :
  let env := disk apartmentFiles [] in
  let this1 := after (reconfigure env apartment) blank in
  let r2 := reconfigure env apartmentNoRenderer this1 in
  (containsSemantics (fromPath env (sceneFilename_of apartmentNoRenderer)) = true /\
   returned r2 = true /\
   activeSceneID_ (state_of r2) = 2 /\
   activeSemanticSceneID_ (state_of r2) = 0 /\
   activeSemanticSceneID_ (state_of r2) <> activeSceneID_ (state_of r2)) /\
  (containsSemantics (fromPath env (sceneFilename_of apartment)) = true /\
   returned (reconfigure env apartment blank) = true /\
   count isInitSceneGraph (calls_since blank this1) = 2%nat /\
   sceneID_ this1 = [0; 1]).
Proof.
  vm_compute. repeat split; discriminate.
Qed.

(** C7, as amended, at work on the first apartment. *)
Lemma embedded_semantics_share_the_primary_graph_witness :
  let env := disk apartmentFiles [] in
  let this' := after (reconfigure env apartment) blank in
  activeSemanticSceneID_ this' = activeSceneID_ this' /\
  activeSceneID_ this' = 0 /\
  sceneManager_ this' = 2%nat.
Proof.
  intros env this'.
  assert (SimulatorConfiguration_eqb env apartment (config_ blank) = false) as Hneq
    by (vm_compute; reflexivity).
  assert (createRenderer apartment = true) as Hrend by reflexivity.
  assert (containsSemantics (fromPath env (sceneFilename_of apartment)) = true) as Hsem
    by (vm_compute; reflexivity).
  assert (reconfigure env apartment blank = Returns tt this') as Hret
    by (vm_compute; reflexivity).
  destruct (embedded_semantics_share_the_primary_graph
              env apartment blank this' Hneq Hrend Hsem Hret)
    as (Hsame & Hactive & _ & _).
  split; [exact Hsame |]. split; [exact Hactive |]. vm_compute. reflexivity.
Defined.

(** C9 as stated fails: with embedded semantics, a semantic mesh whose
    load fails is still given graph 1, and [reconfigure] still returns,
    but the active semantic scene id it leaves is 0, the primary
    graph's. *)
Lemma failed_semantic_mesh_not_recorded_as_active :
  let env := disk apartmentFiles ["apartment_0/info_semantic.ply"%string] in
  let r := reconfigure env apartment blank in
  returned r = true /\
  In (loadScene_call (fromPath env "apartment_0/info_semantic.ply") false 1 false)
     (calls_since blank (state_of r)) /\
  sceneID_ (state_of r) = [0; 1] /\
  activeSemanticSceneID_ (state_of r) = 0 /\
  activeSemanticSceneID_ (state_of r) <> 1.
Proof.
  vm_compute. repeat split; try discriminate. tauto.
Qed.

(** C9, as amended, at work: the Matterport scan's semantic mesh fails to
    load, and graph 1 is the active semantic scene all the same. *)
Lemma semantic_mesh_load_result_is_discarded_witness :
  let env := disk mp3dFiles ["mp3d/17DRP5sb8fy_semantic.ply"%string] in
  loadScene env (fromPath env (semanticMeshFilename_of env mp3d)) 1 = false /\
  exists this',
    reconfigure env mp3d blank = Returns tt this' /\
    sceneID_ this' = [0; 1] /\
    activeSemanticSceneID_ this' = 1.
Proof.
  intros env. split; [vm_compute; reflexivity |].
  assert (primaryLoad env mp3d blank = Some true) as Hload
    by (vm_compute; reflexivity).
  assert (exists_ env (houseFilename_of env mp3d) = true) as Hhouse
    by (vm_compute; reflexivity).
  assert (exists_ env (semanticMeshFilename_of env mp3d) = true) as Hmesh
    by (vm_compute; reflexivity).
  destruct (semantic_mesh_load_result_is_discarded env mp3d blank Hload Hhouse Hmesh)
    as (this' & Hret & _ & Hids & _ & Hsemantic & _).
  exists this'. split; [exact Hret |]. split; [exact Hids | exact Hsemantic].
Defined.

End ConcreteRuns.

(** ** What reconfigure does to each member *)

Section ReconfigureEffects.
Import Magnum Cpp Simulator SimulatorQueries.
Context {PW : Type} `{PhysicsManager PW}.
Implicit Types (env : Collaborators PW) (this : Simulator PW)
  (cfg : SimulatorConfiguration).

Ltac unfold_run :=
  unfold reconfigure, loadsSemanticMesh, primaryLoad, semanticMeshFilename_of,
    containsSemantics, bind, get, modify,
    when, ret, throw, initSceneGraph, resourceManager_loadScene,
    resourceManager_loadScene_physics, loadMp3dHouse, loadSuncgHouse, reset,
    forwarded, called, physicsBound.

Ltac simp_run :=
  cbn -[sceneFilename_of houseFilename_of Z.of_nat String.append app].

Ltac split_run :=
  repeat (simp_run;
    once (match goal with
          | H : ?t = _ |- context [AssetType_eqb ?t _] => rewrite H
          | H : ?b = _ |- context [negb ?b] => rewrite H
          | H : ?b = _ |- context [if ?b then _ else _] => rewrite H
          | H : ?p = _ |- context [let '(_, _) := ?p in _] => rewrite H
          | H : ?x = _ |- context [match ?x with _ => _ end] => rewrite H
          | |- context [AssetType_eqb ?t _] => destruct t eqn:?
          | |- context [negb ?b] => destruct b eqn:?
          | |- context [if ?b then _ else _] => destruct b eqn:?
          | |- context [let '(_, _) := ?p in _] => destruct p eqn:?
          | |- context [match ?x with _ => _ end] => destruct x eqn:?
          end)).

Ltac read_log :=
  unfold calls_since; simp_run; rewrite <- ?app_assoc, drop_app_length; simp_run.

(** The state a [reconfigure] with a changed configuration leaves, member
    by member, whether it returns or throws. *)
Lemma reconfigure_changed_effect env cfg this :
  SimulatorConfiguration_eqb env cfg (config_ this) = false ->
  forall r, reconfigure env cfg this = r ->
  let this' := state_of r in
  let n := sceneManager_ this in
  let ok := match primaryLoad env cfg this with Some false => false | _ => true end in
  let mesh := loadsSemanticMesh env cfg this in
  returned r = ok /\
  config_ this' = cfg /\
  sceneManager_ this' = (if mesh then S (S n) else S n) /\
  sceneID_ this'
  = sceneID_ this ++ Z.of_nat n :: (if mesh then [Z.of_nat (S n)] else []) /\
  activeSceneID_ this' = Z.of_nat n /\
  activeSemanticSceneID_ this'
  = (if createRenderer cfg && ok && containsSemantics (fromPath env (sceneFilename_of cfg))
     then Z.of_nat n
     else if mesh then Z.of_nat (S n) else activeSemanticSceneID_ this) /\
  context_ this'
  = (if createRenderer cfg
     then Some (default (gpuDeviceId cfg) (context_ this)) else context_ this) /\
  renderer_ this'
  = (if createRenderer cfg then Some (width cfg, height cfg) else renderer_ this) /\
  physicsBound this'
  = (if createRenderer cfg && enablePhysics cfg
     then bool_decide (is_Some
            (loadScene_physics env (fromPath env (sceneFilename_of cfg))
               (physicsManager_ this) (Z.of_nat n) (physicsConfigFile cfg)).2)
     else physicsBound this) /\
  (ok = false -> semanticScene_ this' = semanticScene_ this) /\
  count isLoadScene (calls_since this this')
  = (if createRenderer cfg then (if mesh then 2 else 1) else 0)%nat.
Proof.
  intros Heq r0.
  destruct this as [c0 n ids a sa [gpu |] r [pm |] sc calls].
  all: cbn [config_] in Heq.
  all: unfold_run.
  all: split_run.
  all: simp_run.
  all: intros <-.
  all: read_log.
  all: rewrite <- ?app_assoc.
  all: repeat split; try reflexivity; try discriminate.
Qed.

Lemma reset_effect this :
  exists this',
    reset this = Returns tt this' /\
    config_ this' = config_ this /\
    sceneManager_ this' = sceneManager_ this /\
    sceneID_ this' = sceneID_ this /\
    activeSceneID_ this' = activeSceneID_ this /\
    activeSemanticSceneID_ this' = activeSemanticSceneID_ this /\
    context_ this' = context_ this /\
    renderer_ this' = renderer_ this /\
    semanticScene_ this' = semanticScene_ this /\
    physicsBound this' = physicsBound this.
Proof.
  destruct this as [c0 n ids a sa ctx r [pm |] sc calls];
    unfold reset, forwarded, called, physicsBound; cbn;
    eexists; repeat split.
Qed.

(** X1.  If the recorded graph ids are 0, 1, ..., one per graph of the
    scene manager, they still are after [reconfigure], whether it
    short-circuits, returns or throws. *)
Theorem reconfigure_keeps_graphs_enumerated :
  forall env cfg this,
    graphsEnumerated this ->
    graphsEnumerated (state_of (reconfigure env cfg this)).
Proof.
  intros env cfg this Hinv. unfold graphsEnumerated in *.
  destruct (SimulatorConfiguration_eqb env cfg (config_ this)) eqn:Heq.
  - rewrite (reconfigure_unchanged env cfg this Heq).
    destruct (reset_effect this) as (this' & Hr & _ & Hn & Hids & _).
    rewrite Hr. cbn [state_of]. rewrite Hids, Hn. exact Hinv.
  - pose proof (reconfigure_changed_effect env cfg this Heq _ eq_refl) as Heff.
    cbv zeta in Heff. destruct Heff as (_ & _ & Hn & Hids & _).
    rewrite Hids, Hn, Hinv.
    destruct (loadsSemanticMesh env cfg this).
    + rewrite !seq_S, !map_app. cbn. rewrite <- app_assoc. reflexivity.
    + rewrite seq_S, map_app. reflexivity.
Qed.

(** X2.  [reconfigure] never drops a graph: the ids recorded before are a
    prefix of the ids recorded after, none is added when the configuration
    compares equal to the stored one, and one or two are added otherwise. *)
Theorem reconfigure_only_appends_graphs :
  forall env cfg this,
    exists added : list Z,
      sceneID_ (state_of (reconfigure env cfg this)) = sceneID_ this ++ added /\
      sceneManager_ (state_of (reconfigure env cfg this))
      = (sceneManager_ this + length added)%nat /\
      length added
      = (if SimulatorConfiguration_eqb env cfg (config_ this) then 0
         else if loadsSemanticMesh env cfg this then 2 else 1)%nat.
Proof.
  intros env cfg this.
  destruct (SimulatorConfiguration_eqb env cfg (config_ this)) eqn:Heq.
  - rewrite (reconfigure_unchanged env cfg this Heq).
    destruct (reset_effect this) as (this' & Hr & _ & Hn & Hids & _).
    rewrite Hr. cbn [state_of]. exists []. rewrite app_nil_r, Hids, Hn.
    cbn. repeat split. lia.
  - pose proof (reconfigure_changed_effect env cfg this Heq _ eq_refl) as Heff.
    cbv zeta in Heff. destruct Heff as (_ & _ & Hn & Hids & _).
    rewrite Hids, Hn.
    destruct (loadsSemanticMesh env cfg this); eexists; (split; [reflexivity |]);
      cbn; split; try reflexivity; lia.
Qed.

(** X3.  The windowless context is created once: a context that exists
    survives every [reconfigure] unchanged, whatever GPU device the new
    configuration asks for. *)
Theorem reconfigure_keeps_existing_context :
  forall env cfg this (gpuDevice : Z),
    context_ this = Some gpuDevice ->
    context_ (state_of (reconfigure env cfg this)) = Some gpuDevice.
Proof.
  intros env cfg this gpuDevice Hctx.
  destruct (SimulatorConfiguration_eqb env cfg (config_ this)) eqn:Heq.
  - rewrite (reconfigure_unchanged env cfg this Heq).
    destruct (reset_effect this) as (this' & Hr & _ & _ & _ & _ & _ & Hc & _).
    rewrite Hr. cbn [state_of]. rewrite Hc. exact Hctx.
  - pose proof (reconfigure_changed_effect env cfg this Heq _ eq_refl) as Heff.
    cbv zeta in Heff. destruct Heff as (_ & _ & _ & _ & _ & _ & Hc & _).
    rewrite Hc, Hctx. destruct (createRenderer cfg); reflexivity.
Qed.

(** X4.  A changed configuration that asks for no renderer still gets a
    fresh graph and makes it the active one, but nothing is loaded: the
    call returns, makes no load, and leaves the context, the renderer, the
    active semantic scene id and the binding of the physics world alone. *)
Theorem reconfigure_without_renderer_loads_nothing :
  forall env cfg this,
    SimulatorConfiguration_eqb env cfg (config_ this) = false ->
    createRenderer cfg = false ->
    exists this',
      reconfigure env cfg this = Returns tt this' /\
      count isLoadScene (calls_since this this') = 0%nat /\
      sceneID_ this' = sceneID_ this ++ [Z.of_nat (sceneManager_ this)] /\
      activeSceneID_ this' = Z.of_nat (sceneManager_ this) /\
      activeSemanticSceneID_ this' = activeSemanticSceneID_ this /\
      context_ this' = context_ this /\
      renderer_ this' = renderer_ this /\
      physicsBound this' = physicsBound this.
Proof.
  intros env cfg this Heq Hrend.
  pose proof (reconfigure_changed_effect env cfg this Heq _ eq_refl) as Heff.
  cbv zeta in Heff. unfold loadsSemanticMesh, primaryLoad in Heff.
  rewrite Heq, Hrend in Heff. cbn [andb] in Heff.
  destruct Heff as (Hret & _ & _ & Hids & Ha & Hsa & Hc & Hr & Hpb & _ & Hload).
  destruct (reconfigure env cfg this) as [[] this' | e this']; [| discriminate Hret].
  exists this'. cbn [state_of] in *. repeat split; assumption.
Qed.

(** X5.  With physics disabled in the new configuration [reconfigure]
    never binds or unbinds a physics world: one that was bound before
    stays bound, and none appears. *)
Theorem reconfigure_without_physics_keeps_binding :
  forall env cfg this,
    enablePhysics cfg = false ->
    physicsBound (state_of (reconfigure env cfg this)) = physicsBound this.
Proof.
  intros env cfg this Hphys.
  destruct (SimulatorConfiguration_eqb env cfg (config_ this)) eqn:Heq.
  - rewrite (reconfigure_unchanged env cfg this Heq).
    destruct (reset_effect this) as (this' & Hr & _ & _ & _ & _ & _ & _ & _ & _ & Hpb).
    rewrite Hr. exact Hpb.
  - pose proof (reconfigure_changed_effect env cfg this Heq _ eq_refl) as Heff.
    cbv zeta in Heff.
    destruct Heff as (_ & _ & _ & _ & _ & _ & _ & _ & Hpb & _).
    rewrite Hpb, Hphys, andb_false_r. reflexivity.
Qed.

(** X6.  A [reconfigure] that throws rolls nothing back: the new graph is
    recorded and active, the renderer has the new size and a context
    exists, while the semantic scene and the active semantic scene id are
    still the old ones. *)
Theorem reconfigure_throw_leaves_half_built_state :
  forall env cfg this e this',
    reconfigure env cfg this = Throws e this' ->
    sceneManager_ this' = S (sceneManager_ this) /\
    sceneID_ this' = sceneID_ this ++ [Z.of_nat (sceneManager_ this)] /\
    activeSceneID_ this' = Z.of_nat (sceneManager_ this) /\
    renderer_ this' = Some (width cfg, height cfg) /\
    context_ this' = Some (default (gpuDeviceId cfg) (context_ this)) /\
    semanticScene_ this' = semanticScene_ this /\
    activeSemanticSceneID_ this' = activeSemanticSceneID_ this.
Proof.
  intros env cfg this e this' Hthrow.
  destruct (reconfigure_throws_inv env cfg this e this' Hthrow) as (Hload & _ & _).
  assert (SimulatorConfiguration_eqb env cfg (config_ this) = false) as Heq.
  { unfold primaryLoad in Hload.
    destruct (SimulatorConfiguration_eqb env cfg (config_ this)); [discriminate | reflexivity]. }
  assert (createRenderer cfg = true) as Hrend.
  { unfold primaryLoad in Hload. rewrite Heq in Hload.
    destruct (createRenderer cfg); [reflexivity | discriminate]. }
  pose proof (reconfigure_changed_effect env cfg this Heq _ Hthrow) as Heff.
  cbv zeta in Heff. unfold loadsSemanticMesh in Heff.
  rewrite Hload, Hrend in Heff. cbn [andb state_of] in Heff.
  destruct Heff as (_ & _ & Hn & Hids & Ha & Hsa & Hc & Hr & _ & Hsem & _).
  repeat split; try assumption. apply Hsem. reflexivity.
Qed.

(** X7.  Calling [reconfigure] twice with one configuration: once the
    first call has returned, the second is [reset] and nothing more,
    provided the configuration compares equal to itself. *)
Theorem reconfigure_twice_is_reconfigure_then_reset :
  forall env cfg this this',
    SimulatorConfiguration_eqb env cfg cfg = true ->
    reconfigure env cfg this = Returns tt this' ->
    reconfigure env cfg this' = reset this'.
Proof.
  intros env cfg this this' Hrefl Hret.
  apply reconfigure_unchanged.
  destruct (SimulatorConfiguration_eqb env cfg (config_ this)) eqn:Heq.
  - rewrite (reconfigure_unchanged env cfg this Heq) in Hret.
    destruct (reset_effect this) as (this1 & Hr & Hcfg & _).
    rewrite Hr in Hret. injection Hret as <-. rewrite Hcfg. exact Heq.
  - pose proof (reconfigure_changed_effect env cfg this Heq _ Hret) as Heff.
    cbv zeta in Heff. cbn [state_of] in Heff. destruct Heff as (_ & Hcfg & _).
    rewrite Hcfg. exact Hrefl.
Qed.

End ReconfigureEffects.

(** ** Graph accessors *)

Section AccessorFacts.
Import Magnum Cpp Simulator SimulatorQueries.
Context {PW : Type} `{PhysicsManager PW}.
Implicit Types (env : Collaborators PW) (this : Simulator PW)
  (cfg : SimulatorConfiguration).

Lemma getActiveSceneGraph_in_range this (i : nat) :
  activeSceneID_ this = Z.of_nat i -> (i < length (sceneID_ this))%nat ->
  getActiveSceneGraph this = Some (Z.of_nat i).
Proof.
  intros Ha Hlt. unfold getActiveSceneGraph. rewrite Ha.
  destruct (Z.leb_spec 0 (Z.of_nat i)); [| lia].
  destruct (Z.ltb_spec (Z.of_nat i) (Z.of_nat (length (sceneID_ this)))); [| lia].
  reflexivity.
Qed.

Lemma getActiveSemanticSceneGraph_in_range this (i : nat) :
  activeSemanticSceneID_ this = Z.of_nat i -> (i < length (sceneID_ this))%nat ->
  getActiveSemanticSceneGraph this = Some (Z.of_nat i).
Proof.
  intros Ha Hlt. unfold getActiveSemanticSceneGraph. rewrite Ha.
  destruct (Z.leb_spec 0 (Z.of_nat i)); [| lia].
  destruct (Z.ltb_spec (Z.of_nat i) (Z.of_nat (length (sceneID_ this)))); [| lia].
  reflexivity.
Qed.

(** X8.  After a [reconfigure] with a changed configuration both CHECKs of
    [getActiveSceneGraph] pass and it hands out the graph that call
    created, even when the call threw; this needs the list of graph ids to
    be as long as the scene manager has graphs, which [reconfigure] keeps
    true. *)
Theorem getActiveSceneGraph_after_reconfigure :
  forall env cfg this,
    length (sceneID_ this) = sceneManager_ this ->
    SimulatorConfiguration_eqb env cfg (config_ this) = false ->
    getActiveSceneGraph (state_of (reconfigure env cfg this))
    = Some (Z.of_nat (sceneManager_ this)).
Proof.
  intros env cfg this Hlen Heq.
  pose proof (reconfigure_changed_effect env cfg this Heq _ eq_refl) as Heff.
  cbv zeta in Heff. destruct Heff as (_ & _ & _ & Hids & Ha & _).
  apply getActiveSceneGraph_in_range; [exact Ha |].
  rewrite Hids, length_app, Hlen. cbn. lia.
Qed.

(** X9.  [getActiveSemanticSceneGraph] fails its CHECK after configuring a
    scene that has neither embedded semantics nor a semantic mesh on a
    simulator whose active semantic scene id was negative: [reconfigure]
    returns normally but leaves that id as it was. *)
Theorem getActiveSemanticSceneGraph_fails_without_semantics :
  forall env cfg this this',
    activeSemanticSceneID_ this < 0 ->
    SimulatorConfiguration_eqb env cfg (config_ this) = false ->
    containsSemantics (fromPath env (sceneFilename_of cfg)) = false ->
    loadsSemanticMesh env cfg this = false ->
    reconfigure env cfg this = Returns tt this' ->
    activeSemanticSceneID_ this' = activeSemanticSceneID_ this /\
    getActiveSemanticSceneGraph this' = None.
Proof.
  intros env cfg this this' Hneg Heq Hsem Hmesh Hret.
  pose proof (reconfigure_changed_effect env cfg this Heq _ Hret) as Heff.
  cbv zeta in Heff. cbn [state_of] in Heff.
  destruct Heff as (_ & _ & _ & _ & _ & Hsa & _).
  rewrite Hsem, Hmesh, andb_false_r in Hsa.
  split; [exact Hsa |].
  unfold getActiveSemanticSceneGraph. rewrite Hsa.
  destruct (Z.leb_spec 0 (activeSemanticSceneID_ this)); [lia | reflexivity].
Qed.

(** X10.  After a returning [reconfigure] with a renderer, the semantic
    accessor passes its CHECKs whenever the asset has embedded semantics
    (it then hands out the primary graph) or a semantic mesh was loaded (it
    then hands out the second graph). *)
Theorem getActiveSemanticSceneGraph_after_reconfigure :
  forall env cfg this this',
    length (sceneID_ this) = sceneManager_ this ->
    SimulatorConfiguration_eqb env cfg (config_ this) = false ->
    createRenderer cfg = true ->
    containsSemantics (fromPath env (sceneFilename_of cfg)) ||
      loadsSemanticMesh env cfg this = true ->
    reconfigure env cfg this = Returns tt this' ->
    getActiveSemanticSceneGraph this'
    = Some (if containsSemantics (fromPath env (sceneFilename_of cfg))
            then Z.of_nat (sceneManager_ this)
            else Z.of_nat (S (sceneManager_ this))).
Proof.
  intros env cfg this this' Hlen Heq Hrend Hsome Hret.
  pose proof (reconfigure_changed_effect env cfg this Heq _ Hret) as Heff.
  cbv zeta in Heff. cbn [state_of returned] in Heff.
  destruct Heff as (Hok & _ & _ & Hids & _ & Hsa & _).
  rewrite <- Hok, Hrend in Hsa. cbn [andb] in Hsa.
  destruct (containsSemantics (fromPath env (sceneFilename_of cfg))).
  - apply getActiveSemanticSceneGraph_in_range; [exact Hsa |].
    rewrite Hids, length_app, Hlen. cbn. lia.
  - cbn [orb] in Hsome. rewrite Hsome in Hsa, Hids.
    apply getActiveSemanticSceneGraph_in_range; [exact Hsa |].
    rewrite Hids, length_app, Hlen. cbn. lia.
Qed.

End AccessorFacts.

(** ** Object addressing, continued *)

Section ObjectFrameFacts.
Import Magnum Cpp Simulator SimulatorQueries.
Context {PW : Type} `{PhysicsManager PW}.

(** X11.  [getExistingObjectIDs] obeys the validation contract of the other
    object-addressing methods, with the empty vector as its sentinel. *)
Theorem getExistingObjectIDs_is_guarded :
  forall (this : Simulator PW) (sceneID : Z),
    guarded sceneID (getExistingObjectIDs sceneID) getExistingObjectIDs_call
      pm_getExistingObjectIDs [] this.
Proof.
  intros. apply guarded_intro. unfold getExistingObjectIDs.
  destruct (physicsFor sceneID this) as [pm |]; [| reflexivity].
  destruct (pm_getExistingObjectIDs pm); reflexivity.
Qed.

(** X12.  No object-addressing method touches the simulator's own
    bookkeeping: configuration, graphs and their ids, both active ids,
    context, renderer, semantic scene and whether a physics world is bound
    are the same after the call, so a scene id that was valid stays
    valid. *)
Theorem object_methods_keep_bookkeeping :
  forall (env : Collaborators PW) (this : Simulator PW)
         (objectLibIndex objectID sceneID : Z)
         (tau force relPos translation : Vector3) (transform : Matrix4)
         (rotation : Quaternion),
    sameBookkeeping this (state_of (addObject env objectLibIndex sceneID this)) /\
    sameBookkeeping this (state_of (getExistingObjectIDs sceneID this)) /\
    sameBookkeeping this (state_of (removeObject objectID sceneID this)) /\
    sameBookkeeping this (state_of (applyTorque tau objectID sceneID this)) /\
    sameBookkeeping this (state_of (applyForce force relPos objectID sceneID this)) /\
    sameBookkeeping this (state_of (setTransformation transform objectID sceneID this)) /\
    sameBookkeeping this (state_of (getTransformation objectID sceneID this)) /\
    sameBookkeeping this (state_of (setTranslation translation objectID sceneID this)) /\
    sameBookkeeping this (state_of (getTranslation objectID sceneID this)) /\
    sameBookkeeping this (state_of (setRotation rotation objectID sceneID this)) /\
    sameBookkeeping this (state_of (getRotation objectID sceneID this)).
Proof.
  intros.
  unfold addObject, getExistingObjectIDs, removeObject, applyTorque, applyForce,
    setTransformation, getTransformation, setTranslation, getTranslation,
    setRotation, getRotation, physicsFor, forwarded, called, sameBookkeeping,
    physicsBound.
  destruct this as [c0 n ids a sa ctx r [pm |] sc calls]; cbn.
  - destruct ((0 <=? sceneID) && (sceneID <? Z.of_nat (length ids)));
      repeat match goal with
             | |- context [let '(_, _) := ?p in _] => destruct p
             end;
      cbn; repeat split.
  - repeat split.
Qed.

End ObjectFrameFacts.

(** ** World time *)

Section WorldTimeFacts.
Import Magnum Cpp Simulator SimulatorQueries.
Context {PW : Type} `{PhysicsManager PW} `{PhysicsClock PW} (NO_TIME : f64).

(** X13.  With no physics world bound, [getWorldTime] returns [NO_TIME]
    and so does every [stepWorld] of any sequence of steps, whatever the
    step sizes; the simulator is left exactly as it was. *)
Theorem stepWorld_without_physics_is_NO_TIME :
  forall (this : Simulator PW) (dts : list f64),
    physicsManager_ this = None ->
    getWorldTime NO_TIME this = Returns NO_TIME this /\
    stepWorld_each NO_TIME dts this = Returns (map (fun _ => NO_TIME) dts) this.
Proof.
  intros this dts Hnone.
  assert (getWorldTime NO_TIME this = Returns NO_TIME this) as Hget.
  { unfold getWorldTime. rewrite Hnone. reflexivity. }
  split; [exact Hget |].
  induction dts as [| dt rest IH]; [reflexivity |].
  cbn [stepWorld_each map]. unfold bind at 1. unfold stepWorld, bind at 1.
  rewrite Hnone, Hget. unfold bind at 1. rewrite IH. reflexivity.
Qed.

(** X14.  With a physics world bound, [stepWorld dt] steps the world by
    [dt] and returns the time read after the step; the simulator's
    bookkeeping is untouched. *)
Theorem stepWorld_returns_time_after_step :
  forall (this : Simulator PW) (pm : PW) (dt : f64),
    physicsManager_ this = Some pm ->
    exists this',
      stepWorld NO_TIME dt this
      = Returns (pm_getWorldTime (pm_stepPhysics dt pm)).1 this' /\
      physicsManager_ this' = Some (pm_getWorldTime (pm_stepPhysics dt pm)).2 /\
      sameBookkeeping this this'.
Proof.
  intros this pm dt Hpm.
  destruct this as [c0 n ids a sa ctx r pm0 sc calls]. cbn in Hpm. subst pm0.
  unfold stepWorld, bind, getWorldTime, sameBookkeeping, physicsBound. cbn.
  destruct (pm_getWorldTime (pm_stepPhysics dt pm)) as [time pm'].
  eexists. split; [reflexivity |]. cbn. repeat split.
Qed.

(** X15.  Physics never enabled, end to end: starting without a physics
    world, after any [reconfigure] with physics disabled [addObject]
    returns [ID_UNDEFINED], [getExistingObjectIDs] the empty vector,
    [getTranslation] the zero vector and [stepWorld] [NO_TIME], for every
    scene id, and none of them changes the simulator. *)
Theorem physics_disabled_end_to_end :
  forall (env : Collaborators PW) (cfg : SimulatorConfiguration) (this : Simulator PW)
         (objectLibIndex objectID sceneID : Z) (dt : f64),
    physicsManager_ this = None ->
    enablePhysics cfg = false ->
    let this' := state_of (reconfigure env cfg this) in
    addObject env objectLibIndex sceneID this' = Returns (ID_UNDEFINED env) this' /\
    getExistingObjectIDs sceneID this' = Returns [] this' /\
    getTranslation objectID sceneID this'
    = Returns (mkVector3 Float32.zero Float32.zero Float32.zero) this' /\
    stepWorld NO_TIME dt this' = Returns NO_TIME this'.
Proof.
  intros env cfg this objectLibIndex objectID sceneID dt Hnone Hphys this'.
  assert (physicsBound this' = false) as Hunbound.
  { subst this'.
    assert (physicsBound this = false) as Hb by (unfold physicsBound; rewrite Hnone; reflexivity).
    destruct (SimulatorConfiguration_eqb env cfg (config_ this)) eqn:Heq.
    - rewrite (reconfigure_unchanged env cfg this Heq).
      destruct (reset_effect this) as (s & Hr & _ & _ & _ & _ & _ & _ & _ & _ & Hpb).
      rewrite Hr. cbn [state_of]. rewrite Hpb. exact Hb.
    - pose proof (reconfigure_changed_effect env cfg this Heq _ eq_refl) as Heff.
      cbv zeta in Heff.
      destruct Heff as (_ & _ & _ & _ & _ & _ & _ & _ & Hpb & _).
      rewrite Hpb, Hphys, andb_false_r. exact Hb. }
  assert (physicsManager_ this' = None) as Hnone'.
  { unfold physicsBound in Hunbound.
    destruct (physicsManager_ this') as [pm |]; [| reflexivity].
    rewrite bool_decide_eq_true_2 in Hunbound by eauto. discriminate. }
  unfold addObject, getExistingObjectIDs, getTranslation, physicsFor,
    stepWorld, bind, getWorldTime.
  rewrite !Hnone'. repeat split; reflexivity.
Qed.

End WorldTimeFacts.

(** ** Configuration equality, continued *)

Section ConfigurationEqualityFacts.
Import Magnum Cpp Simulator.

(** X16.  [operator==] on configurations holds exactly when the scenes
    compare equal and the agent id, the camera uuid, the three flags and
    the physics configuration file are the same. *)
Theorem SimulatorConfiguration_eqb_true_iff :
  forall {PW} (env : Collaborators PW) (a b : SimulatorConfiguration),
    SimulatorConfiguration_eqb env a b = true <->
    SceneConfiguration_eqb env (scene a) (scene b) = true /\
    defaultAgentId a = defaultAgentId b /\
    defaultCameraUuid a = defaultCameraUuid b /\
    compressTextures a = compressTextures b /\
    createRenderer a = createRenderer b /\
    enablePhysics a = enablePhysics b /\
    physicsConfigFile a = physicsConfigFile b.
Proof.
  intros PW env a b. unfold SimulatorConfiguration_eqb.
  rewrite !andb_true_iff, Z.eqb_eq, String.eqb_eq, !Bool.eqb_true_iff.
  assert (match String.compare (physicsConfigFile a) (physicsConfigFile b) with
          | Eq => true
          | _ => false
          end = true <-> physicsConfigFile a = physicsConfigFile b) as Hcmp.
  { split.
    - destruct (String.compare _ _) eqn:E; try discriminate.
      intros _. apply String.compare_eq_iff. exact E.
    - intros ->. rewrite string_compare_Eq_refl. reflexivity. }
  rewrite Hcmp. tauto.
Qed.

End ConfigurationEqualityFacts.

(** ** Sensor, continued *)

Section SensorBindingFacts.
Import Magnum Cpp Sensor.

(** X17.  Binding never changes the sensor's specification or framebuffer
    size; a bind that throws keeps whatever target was bound before, a bind
    that returns replaces it; and [renderTarget()] returns exactly when a
    target is bound, leaving the sensor as it is either way. *)
Theorem bindRenderTarget_keeps_target_on_failure :
  forall (this : Sensor) (tgt : RenderTarget),
    spec_ (state_of (bindRenderTarget tgt this)) = spec_ this /\
    framebufferSize (state_of (bindRenderTarget tgt this)) = framebufferSize this /\
    tgt_ (state_of (bindRenderTarget tgt this))
    = (if returned (bindRenderTarget tgt this) then Some tgt else tgt_ this) /\
    returned (renderTarget this) = hasRenderTarget this /\
    state_of (renderTarget this) = this.
Proof.
  intros this tgt. unfold bindRenderTarget, renderTarget, hasRenderTarget.
  destruct this as [spec [bound |]];
    destruct (Vector2i_neqb _ _); repeat split.
Qed.

End SensorBindingFacts.

(** ** Depth unprojection, continued *)

Section DepthBufferFacts.
Import Magnum DepthUnprojection.

(** X18.  A buffer that holds only the clear value 1.0 unprojects to all
    zeros, whatever the unprojection coefficients are. *)
Theorem unprojectDepth_cleared_buffer :
  forall (unprojection : Vector2) (depth : list f32),
    Forall (fun d => Float32.eqb d Float32.one = true) depth ->
    unprojectDepth unprojection depth = replicate (length depth) Float32.zero.
Proof.
  intros unprojection depth Hclear. rewrite unprojectDepth_map.
  induction Hclear as [| d rest Hd _ IH]; [reflexivity |].
  cbn [map length replicate]. rewrite IH. unfold linearDepth. rewrite Hd. reflexivity.
Qed.

(** X19.  [unprojectDepth] works pixel by pixel: the buffer keeps its
    length, and unprojecting two buffers laid end to end is unprojecting
    each on its own. *)
Theorem unprojectDepth_pixelwise :
  forall (unprojection : Vector2) (front back : list f32),
    length (unprojectDepth unprojection front) = length front /\
    unprojectDepth unprojection (front ++ back)
    = unprojectDepth unprojection front ++ unprojectDepth unprojection back.
Proof.
  intros unprojection front back. rewrite !unprojectDepth_map. split.
  - apply length_map.
  - apply map_app.
Qed.

End DepthBufferFacts.

(** ** The further properties on concrete runs *)

Section FurtherRuns.
Import Magnum DepthUnprojection Cpp Simulator SimulatorQueries Scenario ScenarioClock.

(** X1 at work: the Matterport scan with its semantic mesh gets graphs 0 and 1. *)
Lemma reconfigure_keeps_graphs_enumerated_witness :
  sceneID_ (after (reconfigure (disk mp3dFiles []) mp3d) blank) = [0; 1].
Proof.
  assert (graphsEnumerated blank) as Hinv by reflexivity.
  exact (reconfigure_keeps_graphs_enumerated (disk mp3dFiles []) mp3d blank Hinv).
Defined.

(** X3 at work: the context made for GPU 0 survives a reconfigure that asks for GPU 1. *)
Lemma reconfigure_keeps_existing_context_witness :
  let env := disk (mp3dFiles ++ suncgFiles) [] in
  let this := after (reconfigure env mp3d) blank in
  gpuDeviceId suncgOnGpu1 = 1 /\
  SimulatorConfiguration_eqb env suncgOnGpu1 (config_ this) = false /\
  context_ (state_of (reconfigure env suncgOnGpu1 this)) = Some 0.
Proof.
  intros env this. split; [reflexivity |]. split; [vm_compute; reflexivity |].
  assert (context_ this = Some 0) as Hctx by (vm_compute; reflexivity).
  exact (reconfigure_keeps_existing_context env suncgOnGpu1 this 0 Hctx).
Defined.

(** X4 at work: no renderer, no file on disk, and the call still returns with graph 0. *)
Lemma reconfigure_without_renderer_loads_nothing_witness :
  exists this',
    reconfigure (disk [] []) apartmentNoRenderer blank = Returns tt this' /\
    sceneID_ this' = [0] /\
    renderer_ this' = None.
Proof.
  assert (SimulatorConfiguration_eqb (disk [] []) apartmentNoRenderer (config_ blank)
          = false) as Hneq by (vm_compute; reflexivity).
  assert (createRenderer apartmentNoRenderer = false) as Hrend by reflexivity.
  destruct (reconfigure_without_renderer_loads_nothing
              (disk [] []) apartmentNoRenderer blank Hneq Hrend)
    as (this' & Hret & _ & Hids & _ & _ & _ & Hr & _).
  exists this'. split; [exact Hret |]. split; [exact Hids | exact Hr].
Defined.

(** X5 at work: the world bound for the Matterport scan is still bound after the SUNCG house, configured without physics. *)
Lemma reconfigure_without_physics_keeps_binding_witness :
  let env := disk (mp3dFiles ++ suncgFiles) [] in
  let this := after (reconfigure env mp3d) blank in
  physicsBound this = true /\
  physicsBound (state_of (reconfigure env suncg this)) = true.
Proof.
  intros env this.
  assert (physicsBound this = true) as Hbound by (vm_compute; reflexivity).
  split; [exact Hbound |].
  assert (enablePhysics suncg = false) as Hphys by reflexivity.
  rewrite (reconfigure_without_physics_keeps_binding env suncg this Hphys).
  exact Hbound.
Defined.

(** X6 at work: the mesh is missing, and graph 0 and a 640x480 renderer are left behind. *)
Lemma reconfigure_throw_leaves_half_built_state_witness :
  let this' := after (reconfigure (disk [] []) missing) blank in
  sceneID_ this' = [0] /\ activeSceneID_ this' = 0 /\
  renderer_ this' = Some (640, 480) /\ semanticScene_ this' = None.
Proof.
  intros this'.
  assert (reconfigure (disk [] []) missing blank
          = Throws (invalid_argument "Cannot load: missing.glb") this') as Hthrow
    by (vm_compute; reflexivity).
  destruct (reconfigure_throw_leaves_half_built_state
              (disk [] []) missing blank _ this' Hthrow)
    as (_ & Hids & Ha & Hr & _ & Hsem & _).
  split; [exact Hids |]. split; [exact Ha |]. split; [exact Hr | exact Hsem].
Defined.

(** X7 at work on the Matterport scan. *)
Lemma reconfigure_twice_is_reconfigure_then_reset_witness :
  let env := disk mp3dFiles [] in
  let this' := after (reconfigure env mp3d) blank in
  reconfigure env mp3d this' = reset this'.
Proof.
  intros env this'.
  assert (SimulatorConfiguration_eqb env mp3d mp3d = true) as Hrefl
    by (vm_compute; reflexivity).
  assert (reconfigure env mp3d blank = Returns tt this') as Hret
    by (vm_compute; reflexivity).
  exact (reconfigure_twice_is_reconfigure_then_reset env mp3d blank this' Hrefl Hret).
Defined.

(** X8 at work: the first configuration makes graph 0 the active one. *)
Lemma getActiveSceneGraph_after_reconfigure_witness :
  getActiveSceneGraph (after (reconfigure (disk mp3dFiles []) mp3d) blank) = Some 0.
Proof.
  assert (length (sceneID_ blank) = sceneManager_ blank) as Hlen by reflexivity.
  assert (SimulatorConfiguration_eqb (disk mp3dFiles []) mp3d (config_ blank) = false)
    as Hneq by (vm_compute; reflexivity).
  exact (getActiveSceneGraph_after_reconfigure (disk mp3dFiles []) mp3d blank Hlen Hneq).
Defined.

(** X9 at work: a Matterport scan with no house file next to it on a new simulator. *)
Lemma getActiveSemanticSceneGraph_fails_without_semantics_witness :
  let env := disk bareMp3dFiles [] in
  let this' := after (reconfigure env mp3d) blank in
  returned (reconfigure env mp3d blank) = true /\
  getActiveSemanticSceneGraph this' = None.
Proof.
  intros env this'. split; [vm_compute; reflexivity |].
  assert (activeSemanticSceneID_ blank < 0) as Hneg by (vm_compute; reflexivity).
  assert (SimulatorConfiguration_eqb env mp3d (config_ blank) = false) as Hneq
    by (vm_compute; reflexivity).
  assert (containsSemantics (fromPath env (sceneFilename_of mp3d)) = false) as Hsem
    by (vm_compute; reflexivity).
  assert (loadsSemanticMesh env mp3d blank = false) as Hmesh
    by (vm_compute; reflexivity).
  assert (reconfigure env mp3d blank = Returns tt this') as Hret
    by (vm_compute; reflexivity).
  exact (proj2 (getActiveSemanticSceneGraph_fails_without_semantics
                  env mp3d blank this' Hneg Hneq Hsem Hmesh Hret)).
Defined.

(** X10 at work: the semantic mesh of the Matterport scan is graph 1. *)
Lemma getActiveSemanticSceneGraph_after_reconfigure_witness :
  let env := disk mp3dFiles [] in
  getActiveSemanticSceneGraph (after (reconfigure env mp3d) blank) = Some 1.
Proof.
  intros env.
  assert (length (sceneID_ blank) = sceneManager_ blank) as Hlen by reflexivity.
  assert (SimulatorConfiguration_eqb env mp3d (config_ blank) = false) as Hneq
    by (vm_compute; reflexivity).
  assert (createRenderer mp3d = true) as Hrend by reflexivity.
  assert (containsSemantics (fromPath env (sceneFilename_of mp3d)) ||
          loadsSemanticMesh env mp3d blank = true) as Hsome
    by (vm_compute; reflexivity).
  assert (reconfigure env mp3d blank
          = Returns tt (after (reconfigure env mp3d) blank)) as Hret
    by (vm_compute; reflexivity).
  exact (getActiveSemanticSceneGraph_after_reconfigure
           env mp3d blank _ Hlen Hneq Hrend Hsome Hret).
Defined.

(** X13 at work: two steps of 1/16 s and 1/32 s with no world bound. *)
Lemma stepWorld_without_physics_is_NO_TIME_witness :
  stepWorld_each (seconds 0 0) [seconds 1 (-4); seconds 1 (-5)] timedBlank
  = Returns [seconds 0 0; seconds 0 0] timedBlank.
Proof.
  assert (physicsManager_ timedBlank = None) as Hnone by reflexivity.
  exact (proj2 (stepWorld_without_physics_is_NO_TIME (seconds 0 0) timedBlank
                  [seconds 1 (-4); seconds 1 (-5)] Hnone)).
Defined.

(** X14 at work: the world bound at time 0 is at 1/16 s after one step of 1/16 s. *)
Lemma stepWorld_returns_time_after_step_witness :
  let this := state_of (reconfigure (timedDisk mp3dFiles []) mp3d timedBlank) in
  exists this',
    stepWorld (seconds 0 0) (seconds 1 (-4)) this = Returns (seconds 1 (-4)) this'.
Proof.
  intros this.
  assert (physicsManager_ this
          = Some (mkTimedWorld (mkWorld ∅ 0 1) (seconds 0 0))) as Hpm
    by (vm_compute; reflexivity).
  destruct (stepWorld_returns_time_after_step (seconds 0 0) this _ (seconds 1 (-4)) Hpm)
    as (this' & Hstep & _).
  exists this'. exact Hstep.
Defined.

(** X15 at work on the Matterport scan configured without physics. *)
Lemma physics_disabled_end_to_end_witness :
  let this' := state_of (reconfigure (timedDisk bareMp3dFiles []) mp3dNoPhysics timedBlank) in
  addObject (timedDisk bareMp3dFiles []) 0 0 this' = Returns (-1) this' /\
  stepWorld (seconds 0 0) (seconds 1 (-4)) this' = Returns (seconds 0 0) this'.
Proof.
  intros this'.
  assert (physicsManager_ timedBlank = None) as Hnone by reflexivity.
  assert (enablePhysics mp3dNoPhysics = false) as Hphys by reflexivity.
  destruct (physics_disabled_end_to_end (seconds 0 0) (timedDisk bareMp3dFiles [])
              mp3dNoPhysics timedBlank 0 0 0 (seconds 1 (-4)) Hnone Hphys)
    as (Hadd & _ & _ & Hstep).
  split; [exact Hadd | exact Hstep].
Defined.

(** X18 at work: three cleared pixels, NaN coefficients. *)
Lemma unprojectDepth_cleared_buffer_witness :
  unprojectDepth (mkVector2 S754_nan S754_nan) [Float32.one; Float32.one; Float32.one]
  = [Float32.zero; Float32.zero; Float32.zero].
Proof.
  apply (unprojectDepth_cleared_buffer (mkVector2 S754_nan S754_nan)
           [Float32.one; Float32.one; Float32.one]).
  repeat constructor.
Defined.

End FurtherRuns.
